(** * Risk governance of the HFT code base: a shallow embedding

    The development follows the three Python modules that make up the
    risk-control layer:

    - [Limits]   : [risk_management/limits.py], class [RiskLimits];
    - [RiskMgr]  : [execution/risk_manager.py], class [RiskManager];
    - [Monitor]  : [risk_management/real_time_monitoring.py], class
                   [RealTimeRiskMonitor].

    Conventions of the embedding.  Python integers are [Z].  A Python
    object with mutable attributes is a record and a method is a function
    from the record (and its arguments) to the returned value and the
    updated record.  [datetime.now()] is an argument of every method that
    reads the clock.  A [dict] keyed by strings is a [gmap string _] when
    it is only read by key, and an association list when the source iterates
    over it with an observable order.  Python floats are idealised by exact
    rationals ([Qc]); the one irrational operation, [x ** 0.5], is a
    parameter. *)

From stdpp Require Import base decidable option list numbers strings gmap fin_maps.
From Stdlib Require Import ZArith QArith Qcanon Lia.

#[local] Open Scope Z_scope.

(** ** Clock values *)

Module Clock.

(** A naive [datetime] is the number of microseconds since an epoch. *)
Definition datetime := Z.

Definition usec_per_sec : Z := 1000000.
Definition usec_per_day : Z := 86400 * usec_per_sec.

Definition of_seconds (s : Z) : datetime := s * usec_per_sec.

(** [(a - b).seconds]: a [timedelta] is normalised to days, seconds in
    [0, 86400) and microseconds in [0, 10^6); the attribute [seconds] is
    the middle component only. *)
Definition timedelta_seconds (a b : datetime) : Z :=
  ((a - b) `mod` usec_per_day) `div` usec_per_sec.

(** [(a - b).total_seconds()] rounded down, for comparison. *)
Definition total_seconds (a b : datetime) : Z :=
  (a - b) `div` usec_per_sec.

End Clock.

(** ** [risk_management/limits.py] *)

Module Limits.
Import Clock.

Record RiskLimits := mkRiskLimits {
  max_position_size : Z;
  max_loss_per_day : Z;
  max_trade_loss : Z;
  stop_loss_threshold : Z;
  max_orders_per_minute : Z;
  current_position_size : Z;
  current_loss_per_day : Z;
  current_trade_loss : Z;
  orders_this_minute : Z;
  last_order_time : option datetime;
  daily_limit_breached : bool;
  trades : list (datetime * Z);
  closed_positions : list (datetime * Z)
}.

(** [RiskLimits.__init__] *)
Definition init (mps mlpd mtl slt mopm : Z) : RiskLimits :=
  {| max_position_size := mps; max_loss_per_day := mlpd;
     max_trade_loss := mtl; stop_loss_threshold := slt;
     max_orders_per_minute := mopm;
     current_position_size := 0; current_loss_per_day := 0;
     current_trade_loss := 0; orders_this_minute := 0;
     last_order_time := None; daily_limit_breached := false;
     trades := []; closed_positions := [] |}.

(** Attribute assignments.  [log_event] only appends a line to the log
    file and is left out of the model. *)
Definition set_current_position_size (v : Z) (r : RiskLimits) : RiskLimits :=
  {| max_position_size := max_position_size r;
     max_loss_per_day := max_loss_per_day r;
     max_trade_loss := max_trade_loss r;
     stop_loss_threshold := stop_loss_threshold r;
     max_orders_per_minute := max_orders_per_minute r;
     current_position_size := v;
     current_loss_per_day := current_loss_per_day r;
     current_trade_loss := current_trade_loss r;
     orders_this_minute := orders_this_minute r;
     last_order_time := last_order_time r;
     daily_limit_breached := daily_limit_breached r;
     trades := trades r; closed_positions := closed_positions r |}.

Definition set_current_loss_per_day (v : Z) (r : RiskLimits) : RiskLimits :=
  {| max_position_size := max_position_size r;
     max_loss_per_day := max_loss_per_day r;
     max_trade_loss := max_trade_loss r;
     stop_loss_threshold := stop_loss_threshold r;
     max_orders_per_minute := max_orders_per_minute r;
     current_position_size := current_position_size r;
     current_loss_per_day := v;
     current_trade_loss := current_trade_loss r;
     orders_this_minute := orders_this_minute r;
     last_order_time := last_order_time r;
     daily_limit_breached := daily_limit_breached r;
     trades := trades r; closed_positions := closed_positions r |}.

Definition set_current_trade_loss (v : Z) (r : RiskLimits) : RiskLimits :=
  {| max_position_size := max_position_size r;
     max_loss_per_day := max_loss_per_day r;
     max_trade_loss := max_trade_loss r;
     stop_loss_threshold := stop_loss_threshold r;
     max_orders_per_minute := max_orders_per_minute r;
     current_position_size := current_position_size r;
     current_loss_per_day := current_loss_per_day r;
     current_trade_loss := v;
     orders_this_minute := orders_this_minute r;
     last_order_time := last_order_time r;
     daily_limit_breached := daily_limit_breached r;
     trades := trades r; closed_positions := closed_positions r |}.

Definition set_orders_this_minute (v : Z) (r : RiskLimits) : RiskLimits :=
  {| max_position_size := max_position_size r;
     max_loss_per_day := max_loss_per_day r;
     max_trade_loss := max_trade_loss r;
     stop_loss_threshold := stop_loss_threshold r;
     max_orders_per_minute := max_orders_per_minute r;
     current_position_size := current_position_size r;
     current_loss_per_day := current_loss_per_day r;
     current_trade_loss := current_trade_loss r;
     orders_this_minute := v;
     last_order_time := last_order_time r;
     daily_limit_breached := daily_limit_breached r;
     trades := trades r; closed_positions := closed_positions r |}.

Definition set_last_order_time (v : option datetime) (r : RiskLimits) : RiskLimits :=
  {| max_position_size := max_position_size r;
     max_loss_per_day := max_loss_per_day r;
     max_trade_loss := max_trade_loss r;
     stop_loss_threshold := stop_loss_threshold r;
     max_orders_per_minute := max_orders_per_minute r;
     current_position_size := current_position_size r;
     current_loss_per_day := current_loss_per_day r;
     current_trade_loss := current_trade_loss r;
     orders_this_minute := orders_this_minute r;
     last_order_time := v;
     daily_limit_breached := daily_limit_breached r;
     trades := trades r; closed_positions := closed_positions r |}.

Definition set_daily_limit_breached (v : bool) (r : RiskLimits) : RiskLimits :=
  {| max_position_size := max_position_size r;
     max_loss_per_day := max_loss_per_day r;
     max_trade_loss := max_trade_loss r;
     stop_loss_threshold := stop_loss_threshold r;
     max_orders_per_minute := max_orders_per_minute r;
     current_position_size := current_position_size r;
     current_loss_per_day := current_loss_per_day r;
     current_trade_loss := current_trade_loss r;
     orders_this_minute := orders_this_minute r;
     last_order_time := last_order_time r;
     daily_limit_breached := v;
     trades := trades r; closed_positions := closed_positions r |}.

Definition set_trades (v : list (datetime * Z)) (r : RiskLimits) : RiskLimits :=
  {| max_position_size := max_position_size r;
     max_loss_per_day := max_loss_per_day r;
     max_trade_loss := max_trade_loss r;
     stop_loss_threshold := stop_loss_threshold r;
     max_orders_per_minute := max_orders_per_minute r;
     current_position_size := current_position_size r;
     current_loss_per_day := current_loss_per_day r;
     current_trade_loss := current_trade_loss r;
     orders_this_minute := orders_this_minute r;
     last_order_time := last_order_time r;
     daily_limit_breached := daily_limit_breached r;
     trades := v; closed_positions := closed_positions r |}.

Definition set_closed_positions (v : list (datetime * Z)) (r : RiskLimits) : RiskLimits :=
  {| max_position_size := max_position_size r;
     max_loss_per_day := max_loss_per_day r;
     max_trade_loss := max_trade_loss r;
     stop_loss_threshold := stop_loss_threshold r;
     max_orders_per_minute := max_orders_per_minute r;
     current_position_size := current_position_size r;
     current_loss_per_day := current_loss_per_day r;
     current_trade_loss := current_trade_loss r;
     orders_this_minute := orders_this_minute r;
     last_order_time := last_order_time r;
     daily_limit_breached := daily_limit_breached r;
     trades := trades r; closed_positions := v |}.

(** [can_take_position] *)
Definition can_take_position (position_size : Z) (r : RiskLimits) : bool :=
  if Z.abs (current_position_size r + position_size) >? max_position_size r
  then false
  else true.

(** [update_position_size] *)
Definition update_position_size (now : datetime) (position_size : Z)
    (r : RiskLimits) : RiskLimits :=
  let r := set_current_position_size (current_position_size r + position_size) r in
  set_trades (trades r ++ [(now, position_size)]) r.

(** [can_take_loss] *)
Definition can_take_loss (trade_loss : Z) (r : RiskLimits) : bool :=
  if Z.abs trade_loss >? max_trade_loss r then false else true.

(** [update_trade_loss] *)
Definition update_trade_loss (trade_loss : Z) (r : RiskLimits) : RiskLimits :=
  let r := set_current_trade_loss (current_trade_loss r + trade_loss) r in
  set_current_loss_per_day (current_loss_per_day r + trade_loss) r.

(** [check_daily_loss_limit]: the returned boolean and the object after
    the call. *)
Definition check_daily_loss_limit (r : RiskLimits) : bool * RiskLimits :=
  if Z.abs (current_loss_per_day r) >? max_loss_per_day r
  then (false, set_daily_limit_breached true r)
  else (true, r).

(** [should_trigger_stop_loss] *)
Definition should_trigger_stop_loss (current_position_value : Z)
    (r : RiskLimits) : bool :=
  if Z.abs current_position_value <=? stop_loss_threshold r then true else false.

(** [reset_daily_limits] *)
Definition reset_daily_limits (r : RiskLimits) : RiskLimits :=
  let r := set_current_loss_per_day 0 r in
  let r := set_current_trade_loss 0 r in
  set_daily_limit_breached false r.

(** [time_diff = (current_time - self.last_order_time).seconds / 60.0],
    kept as a rational. *)
Definition time_diff (current_time last : datetime) : Qc :=
  (Qc_of_Z (timedelta_seconds current_time last) / Qc_of_Z 60)%Qc.

(** [check_order_rate].  A [datetime] object is always truthy, so
    [if self.last_order_time:] tests for [None]. *)
Definition check_order_rate (current_time : datetime) (r : RiskLimits)
    : bool * RiskLimits :=
  let r :=
    match last_order_time r with
    | Some last =>
        let r :=
          if bool_decide (time_diff current_time last < 1)%Qc
          then set_orders_this_minute (orders_this_minute r + 1) r
          else set_orders_this_minute 1 r in
        set_last_order_time (Some current_time) r
    | None =>
        let r := set_last_order_time (Some current_time) r in
        set_orders_this_minute 1 r
    end in
  if orders_this_minute r >? max_orders_per_minute r
  then (false, r)
  else (true, r).

(** [close_position] *)
Definition close_position (now : datetime) (position_value : Z)
    (r : RiskLimits) : RiskLimits :=
  let r := set_closed_positions (closed_positions r ++ [(now, position_value)]) r in
  set_current_position_size 0 r.

(** [get_risk_summary] *)
Record RiskSummary := mkRiskSummary {
  sum_current_position_size : Z;
  sum_current_loss_per_day : Z;
  sum_current_trade_loss : Z;
  sum_orders_this_minute : Z;
  sum_daily_limit_breached : bool
}.

Definition get_risk_summary (r : RiskLimits) : RiskSummary :=
  {| sum_current_position_size := current_position_size r;
     sum_current_loss_per_day := current_loss_per_day r;
     sum_current_trade_loss := current_trade_loss r;
     sum_orders_this_minute := orders_this_minute r;
     sum_daily_limit_breached := daily_limit_breached r |}.

(** [evaluate_risk].  The summary is only used in the log line. *)
Definition evaluate_risk (now : datetime) (r : RiskLimits) : bool * RiskLimits :=
  let risk_summary := get_risk_summary r in
  let '(ok, r) := check_daily_loss_limit r in
  if negb ok then (false, r)
  else
    let '(ok, r) := check_order_rate now r in
    if negb ok then (false, r)
    else (true, r).

(** The calls a client can make on a [RiskLimits] object. *)
Inductive call :=
| CanTakePosition (position_size : Z)
| UpdatePositionSize (now : datetime) (position_size : Z)
| CanTakeLoss (trade_loss : Z)
| UpdateTradeLoss (trade_loss : Z)
| CheckDailyLossLimit
| ShouldTriggerStopLoss (current_position_value : Z)
| ResetDailyLimits
| CheckOrderRate (now : datetime)
| ClosePosition (now : datetime) (position_value : Z)
| GetRiskSummary
| EvaluateRisk (now : datetime).

Definition is_reset (c : call) : bool :=
  match c with ResetDailyLimits => true | _ => false end.

(** The object after one call. *)
Definition exec (c : call) (r : RiskLimits) : RiskLimits :=
  match c with
  | CanTakePosition _ => r
  | UpdatePositionSize now ps => update_position_size now ps r
  | CanTakeLoss _ => r
  | UpdateTradeLoss l => update_trade_loss l r
  | CheckDailyLossLimit => (check_daily_loss_limit r).2
  | ShouldTriggerStopLoss _ => r
  | ResetDailyLimits => reset_daily_limits r
  | CheckOrderRate now => (check_order_rate now r).2
  | ClosePosition now v => close_position now v r
  | GetRiskSummary => r
  | EvaluateRisk now => (evaluate_risk now r).2
  end.

Definition exec_all (cs : list call) (r : RiskLimits) : RiskLimits :=
  foldl (fun r c => exec c r) r cs.

(** The verdicts of [check_order_rate] called at each of the instants
    [ts] in turn. *)
Fixpoint submit_all (ts : list datetime) (r : RiskLimits) : list bool :=
  match ts with
  | [] => []
  | t :: rest =>
      let '(ok, r) := check_order_rate t r in
      ok :: submit_all rest r
  end.

(** The verdicts of [evaluate_risk] called at each of the instants [ts] in
    turn. *)
Fixpoint evaluate_all (ts : list datetime) (r : RiskLimits) : list bool :=
  match ts with
  | [] => []
  | t :: rest =>
      let '(ok, r) := evaluate_risk t r in
      ok :: evaluate_all rest r
  end.

(** The counter after a call of [check_order_rate] at [now]. *)
Definition next_count (now : datetime) (r : RiskLimits) : Z :=
  match last_order_time r with
  | Some last =>
      if bool_decide (timedelta_seconds now last < 60)
      then orders_this_minute r + 1
      else 1
  | None => 1
  end.

(** The same counter in terms of the time elapsed since the previous
    call. *)
Definition rolling_count (now : datetime) (r : RiskLimits) : Z :=
  match last_order_time r with
  | Some last =>
      if bool_decide (now - last < 60 * usec_per_sec)
      then orders_this_minute r + 1
      else 1
  | None => 1
  end.

(** The previous call, if any, was at most a day before [now]. *)
Definition within_a_day (now : datetime) (r : RiskLimits) : Prop :=
  match last_order_time r with
  | Some last => last ≤ now < last + usec_per_day
  | None => True
  end.

(** A burst: each instant of [ts] comes less than 60 seconds after the one
    before it, the first of them after [last]. *)
Fixpoint burst (last : datetime) (ts : list datetime) : Prop :=
  match ts with
  | [] => True
  | t :: rest => (last ≤ t ∧ t - last < 60 * usec_per_sec) ∧ burst t rest
  end.

(** The trailing window of the specification: an order at [t] falls within
    the 60 seconds ending at [now]. *)
Definition in_trailing_window (now t : datetime) : bool :=
  bool_decide (now - 60 * usec_per_sec < t ≤ now).

(** The sliding-window rule: the orders of the trailing window, the current
    one included, are at most [mopm]. *)
Definition sliding_window_passes (mopm : Z) (earlier : list datetime)
    (now : datetime) : bool :=
  bool_decide
    (Z.of_nat (length (List.filter (in_trailing_window now) (earlier ++ [now])))
     ≤ mopm).

(** The verdicts of the sliding-window rule at each of the instants [ts],
    after the orders [earlier]. *)
Fixpoint sliding_window_verdicts (mopm : Z) (earlier ts : list datetime)
    : list bool :=
  match ts with
  | [] => []
  | t :: rest =>
      sliding_window_passes mopm earlier t
      :: sliding_window_verdicts mopm (earlier ++ [t]) rest
  end.

End Limits.

(** ** [execution/risk_manager.py] *)

Module RiskMgr.

(** A trade is a dict with the keys ['symbol'], ['profit'] and ['loss']. *)
Record Trade := mkTrade {
  symbol : string;
  profit : Z;
  loss : Z
}.

(** A custom limit is a dict with the keys ['name'], ['metric'] and
    ['value']. *)
Record Limit := mkLimit {
  name : string;
  metric : string;
  value : Qc
}.

(** The per-symbol entry of [trade_metrics]. *)
Record Metrics := mkMetrics {
  total_trades : Z;
  total_profit : Z;
  total_loss : Z
}.

(** A calendar date is a day number. *)
Definition date := Z.

Record RiskManager := mkRiskManager {
  max_position_size : Z;
  max_daily_loss : Z;
  risk_limits : list Limit;
  current_position_size : Z;
  current_loss : Z;
  trade_history : list Trade;
  daily_loss_tracker : gmap string Z;
  position_tracker : gmap string Z;
  trade_metrics : gmap string Metrics;
  start_of_day : date
}.

(** [RiskManager.__init__], created on day [today]. *)
Definition init (today : date) (mps mdl : Z) (limits : list Limit) : RiskManager :=
  {| max_position_size := mps; max_daily_loss := mdl; risk_limits := limits;
     current_position_size := 0; current_loss := 0; trade_history := [];
     daily_loss_tracker := ∅; position_tracker := ∅; trade_metrics := ∅;
     start_of_day := today |}.

Definition set_current_position_size (v : Z) (m : RiskManager) : RiskManager :=
  {| max_position_size := max_position_size m;
     max_daily_loss := max_daily_loss m; risk_limits := risk_limits m;
     current_position_size := v; current_loss := current_loss m;
     trade_history := trade_history m;
     daily_loss_tracker := daily_loss_tracker m;
     position_tracker := position_tracker m;
     trade_metrics := trade_metrics m; start_of_day := start_of_day m |}.

Definition set_current_loss (v : Z) (m : RiskManager) : RiskManager :=
  {| max_position_size := max_position_size m;
     max_daily_loss := max_daily_loss m; risk_limits := risk_limits m;
     current_position_size := current_position_size m; current_loss := v;
     trade_history := trade_history m;
     daily_loss_tracker := daily_loss_tracker m;
     position_tracker := position_tracker m;
     trade_metrics := trade_metrics m; start_of_day := start_of_day m |}.

Definition set_trade_history (v : list Trade) (m : RiskManager) : RiskManager :=
  {| max_position_size := max_position_size m;
     max_daily_loss := max_daily_loss m; risk_limits := risk_limits m;
     current_position_size := current_position_size m;
     current_loss := current_loss m;
     trade_history := v;
     daily_loss_tracker := daily_loss_tracker m;
     position_tracker := position_tracker m;
     trade_metrics := trade_metrics m; start_of_day := start_of_day m |}.

Definition set_daily_loss_tracker (v : gmap string Z) (m : RiskManager) : RiskManager :=
  {| max_position_size := max_position_size m;
     max_daily_loss := max_daily_loss m; risk_limits := risk_limits m;
     current_position_size := current_position_size m;
     current_loss := current_loss m;
     trade_history := trade_history m;
     daily_loss_tracker := v;
     position_tracker := position_tracker m;
     trade_metrics := trade_metrics m; start_of_day := start_of_day m |}.

Definition set_position_tracker (v : gmap string Z) (m : RiskManager) : RiskManager :=
  {| max_position_size := max_position_size m;
     max_daily_loss := max_daily_loss m; risk_limits := risk_limits m;
     current_position_size := current_position_size m;
     current_loss := current_loss m;
     trade_history := trade_history m;
     daily_loss_tracker := daily_loss_tracker m;
     position_tracker := v;
     trade_metrics := trade_metrics m; start_of_day := start_of_day m |}.

Definition set_trade_metrics (v : gmap string Metrics) (m : RiskManager) : RiskManager :=
  {| max_position_size := max_position_size m;
     max_daily_loss := max_daily_loss m; risk_limits := risk_limits m;
     current_position_size := current_position_size m;
     current_loss := current_loss m;
     trade_history := trade_history m;
     daily_loss_tracker := daily_loss_tracker m;
     position_tracker := position_tracker m;
     trade_metrics := v; start_of_day := start_of_day m |}.

Definition set_start_of_day (v : date) (m : RiskManager) : RiskManager :=
  {| max_position_size := max_position_size m;
     max_daily_loss := max_daily_loss m; risk_limits := risk_limits m;
     current_position_size := current_position_size m;
     current_loss := current_loss m;
     trade_history := trade_history m;
     daily_loss_tracker := daily_loss_tracker m;
     position_tracker := position_tracker m;
     trade_metrics := trade_metrics m; start_of_day := v |}.

(** [if k not in d: d[k] = v0] *)
Definition setdefault {V} (k : string) (v0 : V) (d : gmap string V) : gmap string V :=
  match d !! k with
  | Some _ => d
  | None => <[k := v0]> d
  end.

(** [update_position] *)
Definition update_position (position_change : Z) (sym : string)
    (m : RiskManager) : RiskManager :=
  let m := set_position_tracker (setdefault sym 0 (position_tracker m)) m in
  let m := set_position_tracker
             (alter (fun v => v + position_change) sym (position_tracker m)) m in
  set_current_position_size (current_position_size m + position_change) m.

(** [_update_daily_loss], called on day [today]. *)
Definition _update_daily_loss (today : date) (sym : string) (l : Z)
    (m : RiskManager) : RiskManager :=
  let m :=
    if bool_decide (today ≠ start_of_day m)
    then set_start_of_day today (set_daily_loss_tracker ∅ m)
    else m in
  let m := set_daily_loss_tracker (setdefault sym 0 (daily_loss_tracker m)) m in
  set_daily_loss_tracker (alter (fun v => v + l) sym (daily_loss_tracker m)) m.

(** [_track_trade_metrics] *)
Definition _track_trade_metrics (t : Trade) (m : RiskManager) : RiskManager :=
  let sym := symbol t in
  let m := set_trade_metrics
             (setdefault sym (mkMetrics 0 0 0) (trade_metrics m)) m in
  set_trade_metrics
    (alter (fun x => mkMetrics (total_trades x + 1)
                               (total_profit x + profit t)
                               (total_loss x + loss t))
           sym (trade_metrics m)) m.

(** [record_trade] *)
Definition record_trade (today : date) (t : Trade) (m : RiskManager) : RiskManager :=
  let m := set_trade_history (trade_history m ++ [t]) m in
  let m := set_current_loss (current_loss m + loss t) m in
  let sym := symbol t in
  let m := _update_daily_loss today sym (loss t) m in
  _track_trade_metrics t m.

(** The running value of [peak]: [float('-inf')] before the first trade. *)
Inductive peak_value :=
| NegInf
| Finite (z : Z).

(** [max(peak, x)] *)
Definition peak_max (peak : peak_value) (x : Z) : Z :=
  match peak with
  | NegInf => x
  | Finite p => Z.max p x
  end.

(** The loop of [_calculate_max_drawdown] from the state [(peak,
    max_drawdown)]. *)
Fixpoint max_drawdown_loop (peak : peak_value) (max_drawdown : Z)
    (history : list Trade) : Z :=
  match history with
  | [] => max_drawdown
  | trade :: rest =>
      let peak := peak_max peak (profit trade) in
      let drawdown := peak - profit trade in
      let max_drawdown := Z.max max_drawdown drawdown in
      max_drawdown_loop (Finite peak) max_drawdown rest
  end.

(** [_calculate_max_drawdown] *)
Definition _calculate_max_drawdown (m : RiskManager) : Z :=
  max_drawdown_loop NegInf 0 (trade_history m).

Definition Qc_sum (l : list Qc) : Qc := foldr Qcplus 0%Qc l.
Definition Z_sum (l : list Z) : Z := foldr Z.add 0 l.

Section Metrics.
(** [x ** 0.5] on floats. *)
Variable pow_half : Qc -> Qc.

(** [_calculate_volatility] *)
Definition _calculate_volatility (m : RiskManager) : Qc :=
  let returns := map profit (trade_history m) in
  if (Z.of_nat (length returns) <? 2) then 0%Qc
  else
    let avg_return :=
      (Qc_of_Z (Z_sum returns) / Qc_of_Z (Z.of_nat (length returns)))%Qc in
    let variance :=
      (Qc_sum (map (fun x => (Qc_of_Z x - avg_return) * (Qc_of_Z x - avg_return))%Qc
                   returns)
       / Qc_of_Z (Z.of_nat (length returns) - 1))%Qc in
    pow_half variance.

(** [_calculate_sharpe_ratio], with its default [risk_free_rate=0.02]. *)
Definition risk_free_rate_default : Qc := (Qc_of_Z 2 / Qc_of_Z 100)%Qc.

Definition _calculate_sharpe_ratio (risk_free_rate : Qc) (m : RiskManager) : Qc :=
  let returns := map profit (trade_history m) in
  let avg_return :=
    match returns with
    | [] => 0%Qc
    | _ => (Qc_of_Z (Z_sum returns) / Qc_of_Z (Z.of_nat (length returns)))%Qc
    end in
  let volatility := _calculate_volatility m in
  if bool_decide (volatility = 0%Qc) then 0%Qc
  else ((avg_return - risk_free_rate) / volatility)%Qc.

(** [_calculate_metric] *)
Definition _calculate_metric (metric_name : string) (m : RiskManager) : Qc :=
  if bool_decide (metric_name = "max_drawdown") then
    Qc_of_Z (_calculate_max_drawdown m)
  else if bool_decide (metric_name = "volatility") then
    _calculate_volatility m
  else if bool_decide (metric_name = "sharpe_ratio") then
    _calculate_sharpe_ratio risk_free_rate_default m
  else 0%Qc.

(** [_check_custom_limit] *)
Definition _check_custom_limit (limit : Limit) (m : RiskManager) : bool :=
  let metric_value := _calculate_metric (metric limit) m in
  bool_decide (metric_value <= value limit)%Qc.

(** The [logging.error] lines of [check_risk_limits]: they are the only
    report of which rule failed. *)
Inductive risk_violation :=
| TotalPositionSizeExceedsLimit
| DailyLossExceedsLimit
| CustomLimitExceeded (limit_name : string).

(** The [for limit in self.risk_limits] loop of [check_risk_limits]. *)
Fixpoint check_custom_limits (limits : list Limit) (m : RiskManager)
    : bool * list risk_violation :=
  match limits with
  | [] => (true, [])
  | limit :: rest =>
      if negb (_check_custom_limit limit m)
      then (false, [CustomLimitExceeded (name limit)])
      else check_custom_limits rest m
  end.

(** [check_risk_limits]: the returned boolean and the error lines
    logged. *)
Definition check_risk_limits (m : RiskManager) : bool * list risk_violation :=
  if Z.abs (current_position_size m) >? max_position_size m
  then (false, [TotalPositionSizeExceedsLimit])
  else if current_loss m >? max_daily_loss m
  then (false, [DailyLossExceedsLimit])
  else check_custom_limits (risk_limits m) m.

(** [reset_risk] *)
Definition reset_risk (m : RiskManager) : RiskManager :=
  let m := set_current_position_size 0 m in
  let m := set_current_loss 0 m in
  let m := set_trade_history [] m in
  let m := set_daily_loss_tracker ∅ m in
  set_trade_metrics ∅ m.

(** [_enforce_stop_loss] *)
Definition _enforce_stop_loss (m : RiskManager) : bool * RiskManager :=
  if current_loss m >=? max_daily_loss m
  then (true, reset_risk m)
  else (false, m).

(** [_enforce_position_limits]: the loop returns [False] at the first
    entry over the limit, so the result is [True] exactly when no entry
    is over it, in whatever order the dict is walked. *)
Definition _enforce_position_limits (m : RiskManager) : bool :=
  forallb (fun '(_, size) => negb (Z.abs size >? max_position_size m))
          (map_to_list (position_tracker m)).

(** [real_time_risk_monitoring] *)
Definition real_time_risk_monitoring (m : RiskManager) : bool * RiskManager :=
  if negb (_enforce_position_limits m) then (false, m)
  else
    let '(stopped, m) := _enforce_stop_loss m in
    if stopped then (false, m)
    else ((check_risk_limits m).1, m).

(** Every rule of [check_risk_limits] that the state violates, in the
    order the rules are examined: what an evaluation that collects all
    violations would report. *)
Definition all_violations (m : RiskManager) : list risk_violation :=
  (if Z.abs (current_position_size m) >? max_position_size m
   then [TotalPositionSizeExceedsLimit] else [])
  ++ (if current_loss m >? max_daily_loss m
      then [DailyLossExceedsLimit] else [])
  ++ omap (fun limit =>
             if _check_custom_limit limit m then None
             else Some (CustomLimitExceeded (name limit)))
          (risk_limits m).

(** [symbol_exposure] and [daily_loss_for_symbol] *)
Definition symbol_exposure (sym : string) (m : RiskManager) : Z :=
  default 0 (position_tracker m !! sym).

Definition daily_loss_for_symbol (sym : string) (m : RiskManager) : Z :=
  default 0 (daily_loss_tracker m !! sym).

End Metrics.

(** A stand-in for [x ** 0.5] in examples that compute no volatility. *)
Definition no_pow_half : Qc -> Qc := fun x => x.

(** The running sums of a series, from the total [acc] so far. *)
Fixpoint cumulative (acc : Z) (xs : list Z) : list Z :=
  match xs with
  | [] => []
  | x :: rest => (acc + x) :: cumulative (acc + x) rest
  end.

(** The decline at the end of a non-empty prefix: its maximum minus its
    last value. *)
Definition decline_at (prefix : list Z) : Z :=
  match last prefix with
  | Some current => foldr Z.max current prefix - current
  | None => 0
  end.

(** The largest peak-to-current decline of a series: the maximum, over its
    non-empty prefixes, of the decline at the end of the prefix (0 for the
    empty series). *)
Definition largest_decline (series : list Z) : Z :=
  foldr Z.max 0
        (map (fun n => decline_at (take n series)) (seq 1 (length series))).

(** The maximum drawdown of the specification: the largest decline of the
    cumulative profit. *)
Definition cumulative_max_drawdown (m : RiskManager) : Z :=
  largest_decline (cumulative 0 (map profit (trade_history m))).

(** What the loop of [_calculate_max_drawdown] knows of the profits [seen]
    so far: [peak] is their maximum. *)
Definition peak_of (peak : peak_value) (seen : list Z) : Prop :=
  ∀ c, foldr Z.max c seen
       = match peak with NegInf => c | Finite p => Z.max p c end.

(** The sum of the per-symbol positions. *)
Definition tracker_sum (d : gmap string Z) : Z :=
  map_fold (fun _ v acc => v + acc) 0 d.

(** [current_position_size] agrees with [position_tracker]. *)
Definition position_consistent (m : RiskManager) : Prop :=
  current_position_size m = tracker_sum (position_tracker m).

End RiskMgr.

(** ** [risk_management/real_time_monitoring.py] *)

Module Monitor.

(** The value of [get_risk_limits()].  The function is imported from
    [risk_management.limits], which does not define it; the dict it returns
    is taken as given, with the three keys [check_risk_limits] reads. *)
Record RiskLimitsDict := mkRiskLimitsDict {
  max_position_size : Z;
  max_loss : Z;
  max_exposure_by_asset_class : gmap string Z
}.

(** An entry of the dict returned by [get_positions()]. *)
Record Position := mkPosition {
  quantity : Z;
  entry_price : Z
}.

(** The attributes of the monitor that [check_risk_limits] reads.  The two
    dicts are walked by [items()], so they keep their insertion order. *)
Record RealTimeRiskMonitor := mkMonitor {
  positions : list (string * Position);
  exposure_by_asset_class : list (string * Z);
  total_exposure : Z;
  total_pnl : Z;
  risk_limits : RiskLimitsDict
}.

(** [get_asset_class] *)
Definition get_asset_class (sym : string) : string :=
  if String.prefix "FX" sym then "Forex"
  else if String.prefix "EQ" sym then "Equities"
  else if String.prefix "COM" sym then "Commodities"
  else "Other".

(** [d[k] += v if k in d else d[k] = v] on an insertion-ordered dict. *)
Fixpoint dict_accumulate (k : string) (v : Z) (d : list (string * Z))
    : list (string * Z) :=
  match d with
  | [] => [(k, v)]
  | (k', v') :: rest =>
      if String.eqb k' k then (k', v' + v) :: rest
      else (k', v') :: dict_accumulate k v rest
  end.

(** [update_exposure_by_asset_class] *)
Definition update_exposure_by_asset_class (m : RealTimeRiskMonitor)
    : RealTimeRiskMonitor :=
  let exposures :=
    foldl (fun d '(sym, position) =>
             let asset_class := get_asset_class sym in
             let exposure := quantity position * entry_price position in
             dict_accumulate asset_class exposure d)
          [] (positions m) in
  {| positions := positions m; exposure_by_asset_class := exposures;
     total_exposure := total_exposure m; total_pnl := total_pnl m;
     risk_limits := risk_limits m |}.

(** [sum([abs(pos['quantity']) for pos in self.positions.values()])] *)
Definition sum_abs_quantity (ps : list (string * Position)) : Z :=
  foldr Z.add 0 (map (fun p => Z.abs (quantity p.2)) ps).

(** The enforcement actions, in the order they are invoked. *)
Inductive action :=
| HaltTrading
| LiquidatePositions
| SendAlert (message : string).

(** What can interrupt [check_risk_limits]. *)
Inductive exn :=
| KeyError (key : string)
| RequestException.

(** The outcome of [requests.post]: a response with its status code, or an
    exception raised by the library. *)
Inductive post_outcome :=
| Response (status_code : Z)
| Raises.

(** A method that invokes actions and may raise: it maps the actions
    invoked so far to the actions invoked after it and to its result. *)
Definition M (A : Type) : Type := list action -> list action * (exn + A).

Definition ret {A} (x : A) : M A := fun tr => (tr, inr x).

Definition bind {A B} (c : M A) (k : A -> M B) : M B :=
  fun tr =>
    match c tr with
    | (tr', inl e) => (tr', inl e)
    | (tr', inr x) => k x tr'
    end.

Definition raise {A} (e : exn) : M A := fun tr => (tr, inl e).

Definition invoke (a : action) : M unit := fun tr => (tr ++ [a], inr tt).

#[export] Instance M_ret : MRet M := @ret.
#[export] Instance M_bind : MBind M := fun A B k c => bind c k.

(** [for x in xs: body(x)] *)
Fixpoint for_each {A} (xs : list A) (body : A -> M unit) : M unit :=
  match xs with
  | [] => ret tt
  | x :: rest => body x ;; for_each rest body
  end.

Definition is_halt (a : action) : bool :=
  match a with HaltTrading => true | _ => false end.
Definition is_liquidate (a : action) : bool :=
  match a with LiquidatePositions => true | _ => false end.
Definition is_alert (a : action) : bool :=
  match a with SendAlert _ => true | _ => false end.

(** How often an action of a kind was invoked. *)
Definition calls (kind : action -> bool) (tr : list action) : nat :=
  length (List.filter kind tr).

Section Network.
(** The alert endpoint: the outcome of the [n]-th [requests.post]. *)
Variable network : nat -> post_outcome.

(** [halt_trading] and [liquidate_positions] only log. *)
Definition halt_trading : M unit := invoke HaltTrading.
Definition liquidate_positions : M unit := invoke LiquidatePositions.

(** [send_alert]: posts the message; a status other than 200 is logged and
    nothing more, an exception of [requests.post] propagates. *)
Definition send_alert (alert_message : string) : M unit :=
  fun tr =>
    let n := calls is_alert tr in
    let tr := tr ++ [SendAlert alert_message] in
    match network n with
    | Response status_code =>
        if status_code =? 200 then (tr, inr tt) else (tr, inr tt)
    | Raises => (tr, inl RequestException)
    end.

(** [trigger_risk_alert] *)
Definition trigger_risk_alert (message : string) : M unit :=
  halt_trading ;;
  liquidate_positions ;;
  send_alert message.

(** [d[k]] on the dict of asset-class limits. *)
Definition getitem (d : gmap string Z) (k : string) : M Z :=
  match d !! k with
  | Some v => ret v
  | None => raise (KeyError k)
  end.

(** [check_risk_limits] *)
Definition check_risk_limits (m : RealTimeRiskMonitor) : M unit :=
  (if total_exposure m >? max_position_size (risk_limits m)
   then trigger_risk_alert "Max position size exceeded"
   else ret tt) ;;
  (if total_pnl m <? max_loss (risk_limits m)
   then trigger_risk_alert "Max loss threshold breached"
   else ret tt) ;;
  for_each (exposure_by_asset_class m) (fun '(asset_class, exposure) =>
    limit ← getitem (max_exposure_by_asset_class (risk_limits m)) asset_class;
    if exposure >? limit
    then trigger_risk_alert ("Max exposure in " +:+ asset_class +:+ " exceeded")
    else ret tt).

(** One turn of the loop of [monitor_risk] once the snapshot [m] has been
    refreshed: [check_risk_limits] runs inside [try ... except Exception],
    so an exception ends the evaluation and the loop goes on. *)
Definition evaluate (m : RealTimeRiskMonitor) (tr : list action) : list action :=
  (check_risk_limits m tr).1.

(** The loop of [monitor_risk] over successive snapshots. *)
Definition monitor_risk (snapshots : list RealTimeRiskMonitor)
    (tr : list action) : list action :=
  foldl (fun tr m => evaluate m tr) tr snapshots.

End Network.

(** The rules of [check_risk_limits] that a snapshot violates, by the
    message of their alert, in the order they are examined.  An asset class
    without a configured limit violates nothing (the lookup raises). *)
Definition violated_rules (m : RealTimeRiskMonitor) : list string :=
  (if total_exposure m >? max_position_size (risk_limits m)
   then ["Max position size exceeded"] else []) ++
  (if total_pnl m <? max_loss (risk_limits m)
   then ["Max loss threshold breached"] else []) ++
  omap (fun '(asset_class, exposure) =>
          match max_exposure_by_asset_class (risk_limits m) !! asset_class with
          | Some limit =>
              if exposure >? limit
              then Some ("Max exposure in " +:+ asset_class +:+ " exceeded")
              else None
          | None => None
          end)
       (exposure_by_asset_class m).

(** The actions of one [trigger_risk_alert] for each rule of a list. *)
Definition enforcement (rules : list string) : list action :=
  flat_map (fun message => [HaltTrading; LiquidatePositions; SendAlert message])
           rules.

(** The number of violations found over a series of evaluations. *)
Definition violations_found (snapshots : list RealTimeRiskMonitor) : nat :=
  sum_list (map (fun m => length (violated_rules m)) snapshots).

(** An evaluation fails when it finds a violated rule. *)
Definition fails (m : RealTimeRiskMonitor) : Prop := violated_rules m ≠ [].

(** Every asset class of the snapshot has a configured limit. *)
Definition limits_configured (m : RealTimeRiskMonitor) : Prop :=
  Forall (fun e => is_Some (max_exposure_by_asset_class (risk_limits m) !! e.1))
         (exposure_by_asset_class m).

End Monitor.

From Stdlib Require Import Sorted.

(** ** Sequences of calls *)

Module LimitsRun.
Import Clock Limits.

(** The guarded update of the usage script of [limits.py]:
    [if risk_limits.can_take_position(size):
       risk_limits.update_position_size(size)]. *)
Definition take_position_if_allowed (now : datetime) (position_size : Z)
    (r : RiskLimits) : RiskLimits :=
  if can_take_position position_size r
  then update_position_size now position_size r
  else r.

(** The guarded update repeated over a series of requested positions. *)
Definition take_positions (requests : list (datetime * Z)) (r : RiskLimits)
    : RiskLimits :=
  foldl (fun r '(now, position_size) =>
           take_position_if_allowed now position_size r) r requests.

(** [update_position_size] over a series of positions. *)
Definition update_positions (requests : list (datetime * Z)) (r : RiskLimits)
    : RiskLimits :=
  foldl (fun r '(now, position_size) =>
           update_position_size now position_size r) r requests.

(** The guarded loss of the usage script:
    [if risk_limits.can_take_loss(loss): risk_limits.update_trade_loss(loss)]. *)
Definition take_loss_if_allowed (trade_loss : Z) (r : RiskLimits) : RiskLimits :=
  if can_take_loss trade_loss r then update_trade_loss trade_loss r else r.

Definition take_losses (losses : list Z) (r : RiskLimits) : RiskLimits :=
  foldl (fun r l => take_loss_if_allowed l r) r losses.

(** [update_trade_loss] over a series of losses. *)
Definition record_losses (losses : list Z) (r : RiskLimits) : RiskLimits :=
  foldl (fun r l => update_trade_loss l r) r losses.

End LimitsRun.

Module RiskMgrRun.
Import RiskMgr.

(** The calls a client can make on a [RiskManager] that change or judge
    its state. *)
Inductive call :=
| UpdatePosition (position_change : Z) (sym : string)
| RecordTrade (today : date) (trade : Trade)
| CheckRiskLimits
| ResetRisk
| EnforceStopLoss
| EnforcePositionLimits
| RealTimeRiskMonitoring.

Section Exec.
Variable pow_half : Qc -> Qc.

(** The object after one call. *)
Definition exec (c : call) (m : RiskManager) : RiskManager :=
  match c with
  | UpdatePosition position_change sym => update_position position_change sym m
  | RecordTrade today trade => record_trade today trade m
  | CheckRiskLimits => m
  | ResetRisk => reset_risk m
  | EnforceStopLoss => (_enforce_stop_loss m).2
  | EnforcePositionLimits => m
  | RealTimeRiskMonitoring => (real_time_risk_monitoring pow_half m).2
  end.

Definition exec_all (cs : list call) (m : RiskManager) : RiskManager :=
  foldl (fun m c => exec c m) m cs.

End Exec.

(** The trades of a symbol in a history. *)
Definition trades_of (sym : string) (history : list Trade) : list Trade :=
  List.filter (fun t => bool_decide (symbol t = sym)) history.

(** The metrics of a symbol computed afresh from a history: no entry when
    the symbol never traded. *)
Definition metrics_of (sym : string) (history : list Trade) : option Metrics :=
  match trades_of sym history with
  | [] => None
  | ts => Some (mkMetrics (Z.of_nat (length ts))
                          (Z_sum (map profit ts))
                          (Z_sum (map loss ts)))
  end.

(** [record_trade] over a series of trades recorded on the same day. *)
Definition record_trades (today : date) (ts : list Trade) (m : RiskManager)
    : RiskManager :=
  foldl (fun m t => record_trade today t m) m ts.

(** The books of a [RiskManager] agree with its trade history: the total
    loss is the sum of the losses of the recorded trades and the metrics of
    every symbol are those of its trades. *)
Definition books_agree (m : RiskManager) : Prop :=
  current_loss m = Z_sum (map loss (trade_history m))
  ∧ ∀ sym, trade_metrics m !! sym = metrics_of sym (trade_history m).

End RiskMgrRun.

Module MonitorRun.
Import Monitor.

(** [d.get(k)] on an insertion-ordered dict. *)
Fixpoint dict_get (k : string) (d : list (string * Z)) : option Z :=
  match d with
  | [] => None
  | (k', v) :: rest => if String.eqb k' k then Some v else dict_get k rest
  end.

(** The positions of an asset class. *)
Definition positions_of (asset_class : string) (ps : list (string * Position))
    : list (string * Position) :=
  List.filter (fun p => String.eqb (get_asset_class p.1) asset_class) ps.

(** The signed notional of a list of positions. *)
Definition notional (ps : list (string * Position)) : Z :=
  foldr Z.add 0 (map (fun p => quantity p.2 * entry_price p.2) ps).

(** The four asset classes of [get_asset_class]. *)
Definition asset_classes : list string :=
  ["Forex"; "Equities"; "Commodities"; "Other"].

(** A snapshot with another exposure dict. *)
Definition with_exposures (exposures : list (string * Z))
    (m : RealTimeRiskMonitor) : RealTimeRiskMonitor :=
  {| positions := positions m; exposure_by_asset_class := exposures;
     total_exposure := total_exposure m; total_pnl := total_pnl m;
     risk_limits := risk_limits m |}.

(** A computation that enforces the rules [violated] in order, as far as it
    gets: the actions it adds are the enforcement of a prefix of them, and of
    all of them when it returns normally. *)
Definition enforces_prefix_of (violated : list string) (c : M unit) : Prop :=
  ∀ tr, ∃ rules,
    rules `prefix_of` violated
    ∧ (c tr).1 = tr ++ enforcement rules
    ∧ ((c tr).2 = inr tt → rules = violated).

End MonitorRun.

(** * Properties of [RiskLimits] *)

Section LimitsFacts.
Import Clock Limits.

(** [time_diff < 1] compares the [seconds] component with 60. *)
Lemma time_diff_lt_1 (now last : datetime) :
  (time_diff now last < 1)%Qc ↔ timedelta_seconds now last < 60.
Proof.
  unfold time_diff.
  assert (H60 : (Qc_of_Z 0 < Qc_of_Z 60)%Qc) by (apply (proj1 (Z2Qc_inj_lt 0 60)); lia).
  rewrite Z2Qc_inj_0 in H60.
  rewrite (Qcmult_lt_mono_pos_r _ _ _ H60).
  unfold Qcdiv. rewrite <- Qcmult_assoc, Qcmult_inv_l, Qcmult_1_r, Qcmult_1_l.
  - symmetry. apply (Z2Qc_inj_lt _ 60).
  - intros E. rewrite E in H60. by apply (irreflexivity Qclt) in H60.
Qed.

(** Within a day of the previous order the [seconds] component is the
    elapsed time in whole seconds. *)
Lemma timedelta_seconds_same_day (now last : datetime) :
  last ≤ now < last + usec_per_day →
  timedelta_seconds now last = total_seconds now last.
Proof.
  intros H. unfold timedelta_seconds, total_seconds.
  rewrite Z.mod_small; [done | lia].
Qed.

Lemma total_seconds_lt_60 (now last : datetime) :
  total_seconds now last < 60 ↔ now - last < 60 * usec_per_sec.
Proof.
  unfold total_seconds, usec_per_sec.
  pose proof (Z.div_mod (now - last) 1000000 ltac:(lia)).
  pose proof (Z.mod_pos_bound (now - last) 1000000 ltac:(lia)).
  lia.
Qed.

Lemma rate_verdict (r : RiskLimits) :
  (if orders_this_minute r >? max_orders_per_minute r
   then (false, r) else (true, r))
  = (bool_decide (orders_this_minute r ≤ max_orders_per_minute r), r).
Proof.
  destruct (Z.gtb_spec (orders_this_minute r) (max_orders_per_minute r)).
  - by rewrite bool_decide_eq_false_2 by lia.
  - by rewrite bool_decide_eq_true_2 by lia.
Qed.

(** [check_order_rate] in one equation: the timestamp is recorded, the
    counter is [next_count] and the verdict compares it with the limit. *)
Lemma check_order_rate_eq (now : datetime) (r : RiskLimits) :
  check_order_rate now r
  = (bool_decide (next_count now r ≤ max_orders_per_minute r),
     set_last_order_time (Some now) (set_orders_this_minute (next_count now r) r)).
Proof.
  unfold check_order_rate, next_count. cbv zeta. rewrite rate_verdict.
  destruct (last_order_time r) as [last|]; [|done].
  rewrite (bool_decide_ext _ _ (time_diff_lt_1 now last)).
  by destruct (bool_decide (timedelta_seconds now last < 60)).
Qed.

Lemma next_count_rolling (now : datetime) (r : RiskLimits) :
  within_a_day now r → next_count now r = rolling_count now r.
Proof.
  unfold within_a_day, next_count, rolling_count.
  destruct (last_order_time r) as [last|]; [|done]. intros H.
  rewrite timedelta_seconds_same_day by done.
  by rewrite (bool_decide_ext _ _ (total_seconds_lt_60 now last)).
Qed.

(** The verdict list of a burst, one order longer. *)
Lemma map_seqZ_succ {A} (f : Z → A) (n : nat) :
  map f (seqZ 1 (Z.of_nat (S n)))
  = f 1 :: map (fun k => f (1 + k)) (seqZ 1 (Z.of_nat n)).
Proof.
  rewrite Nat2Z.inj_succ, (seqZ_cons 1 (Z.succ (Z.of_nat n))) by lia.
  cbn [map]. f_equal. rewrite Z.pred_succ.
  change (Z.succ 1) with (1 + 1).
  rewrite <- (fmap_add_seqZ 1 1). by rewrite <- list_fmap_compose.
Qed.

(** Inside a burst the counter grows by one at every call. *)
Lemma submit_all_burst (ts : list datetime) (last : datetime) (r : RiskLimits) :
  last_order_time r = Some last →
  burst last ts →
  submit_all ts r
  = map (fun k => bool_decide (orders_this_minute r + k ≤ max_orders_per_minute r))
        (seqZ 1 (Z.of_nat (length ts))).
Proof.
  revert last r. induction ts as [|t ts IH]; intros last r Hlast Hb; [done|].
  destruct Hb as [[Hle Hlt] Hb]. cbn [submit_all].
  rewrite check_order_rate_eq.
  rewrite next_count_rolling by (unfold within_a_day; rewrite Hlast; unfold usec_per_day, usec_per_sec in *; lia).
  unfold rolling_count. rewrite Hlast.
  rewrite (bool_decide_eq_true_2 (t - last < 60 * usec_per_sec)) by done.
  rewrite (IH t) by done. cbn [length].
  rewrite map_seqZ_succ. f_equal.
  apply list_fmap_ext. intros _ k _. simpl. apply bool_decide_ext. lia.
Qed.

(** What [check_order_rate] computes in place of a rate per minute.  For a
    call at most a day after the previous one: the call records its own
    instant as the last order time; when it comes less than 60 seconds after
    the previous call the counter is incremented, otherwise (and on the first
    call) it is reset to 1; the call passes exactly when the counter is at
    most [max_orders_per_minute].  Hence, on a fresh limiter, a burst of
    orders passes up to the [max_orders_per_minute]-th order and fails from
    the next one on. *)
Theorem check_order_rate_rolling_counter
    (now : datetime) (r : RiskLimits)
    (mps mlpd mtl slt mopm : Z) (t0 : datetime) (ts : list datetime) :
  within_a_day now r →
  burst t0 ts →
  (last_order_time (check_order_rate now r).2 = Some now
   ∧ orders_this_minute (check_order_rate now r).2 = rolling_count now r
   ∧ (check_order_rate now r).1
     = bool_decide (rolling_count now r ≤ max_orders_per_minute r))
  ∧ submit_all (t0 :: ts) (init mps mlpd mtl slt mopm)
    = map (fun k => bool_decide (k ≤ mopm))
          (seqZ 1 (Z.of_nat (S (length ts)))).
Proof.
  intros Hday Hb. split.
  - rewrite check_order_rate_eq, next_count_rolling by done. done.
  - cbn [submit_all]. rewrite check_order_rate_eq.
    rewrite (submit_all_burst ts t0) by done.
    by rewrite map_seqZ_succ.
Qed.

(** The theorem at a limiter that allows two orders per minute: a second
    order 30 seconds after the first, then a burst of three. *)
Lemma check_order_rate_rolling_counter_witness :
  let r := (check_order_rate (of_seconds 0) (init 100000 50000 10000 (-20000) 2)).2 in
  (last_order_time (check_order_rate (of_seconds 30) r).2 = Some (of_seconds 30)
   ∧ orders_this_minute (check_order_rate (of_seconds 30) r).2 = 2
   ∧ (check_order_rate (of_seconds 30) r).1 = true)
  ∧ submit_all [of_seconds 0; of_seconds 1; of_seconds 2]
               (init 100000 50000 10000 (-20000) 2)
    = [true; true; false].
Proof.
  apply (check_order_rate_rolling_counter
           (of_seconds 30)
           (check_order_rate (of_seconds 0) (init 100000 50000 10000 (-20000) 2)).2
           100000 50000 10000 (-20000) 2
           (of_seconds 0) [of_seconds 1; of_seconds 2]).
  - vm_compute. split; [discriminate | reflexivity].
  - vm_compute. repeat split; discriminate.
Defined.

(** C4 (the code departs from the claim).  [check_order_rate], documented
    as checking the order rate per minute, refuses orders whose trailing 60
    seconds hold no more than [max_orders_per_minute] orders.  With two
    orders allowed per minute and orders at 0 s, 30 s and 61 s, the trailing
    window of the third order holds two orders, yet the call fails: the
    counter has counted three calls in a row.  With five orders allowed per
    minute and one order every 30 seconds, two per minute, every trailing
    window holds two orders, yet every call from the sixth on fails: the
    counter is never reset while the gaps stay under 60 seconds. *)
Theorem check_order_rate_refuses_orders_within_rate :
  let ts := [of_seconds 0; of_seconds 30; of_seconds 61] in
  let steady := map of_seconds [0; 30; 60; 90; 120; 150; 180; 210; 240] in
  (sliding_window_verdicts 2 [] ts = [true; true; true]
   ∧ submit_all ts (init 100000 50000 10000 (-20000) 2) = [true; true; false])
  ∧ (sliding_window_verdicts 5 [] steady
     = [true; true; true; true; true; true; true; true; true]
     ∧ submit_all steady (init 100000 50000 10000 (-20000) 5)
       = [true; true; true; true; true; false; false; false; false]).
Proof. repeat split; vm_compute; reflexivity. Qed.

(** Why the previous call is taken to be at most a day old: the [seconds]
    attribute drops whole days, so an order one day and five seconds after
    the last one is counted as if it came five seconds after it. *)
Lemma check_order_rate_drops_whole_days :
  let r := (check_order_rate (of_seconds 0)
              (init 100000 50000 10000 (-20000) 2)).2 in
  timedelta_seconds (of_seconds 86405) (of_seconds 0) = 5
  ∧ total_seconds (of_seconds 86405) (of_seconds 0) = 86405
  ∧ orders_this_minute (check_order_rate (of_seconds 86405) r).2 = 2.
Proof. repeat split; vm_compute; reflexivity. Qed.

(** [evaluate_risk] is the daily-loss check followed, when it passes, by
    [check_order_rate]. *)
Lemma evaluate_risk_eq (now : datetime) (r : RiskLimits) :
  evaluate_risk now r
  = if Z.abs (current_loss_per_day r) >? max_loss_per_day r
    then (false, set_daily_limit_breached true r)
    else check_order_rate now r.
Proof.
  unfold evaluate_risk, check_daily_loss_limit.
  destruct (_ >? _); [done|]. cbn [negb].
  by destruct (check_order_rate now r) as [[] ?].
Qed.

Lemma evaluate_risk_pass (now : datetime) (r : RiskLimits) :
  (check_daily_loss_limit r).1 = true →
  evaluate_risk now r = check_order_rate now r.
Proof.
  rewrite evaluate_risk_eq. unfold check_daily_loss_limit.
  by destruct (_ >? _).
Qed.

Lemma evaluate_all_pass (ts : list datetime) (r : RiskLimits) :
  (check_daily_loss_limit r).1 = true →
  evaluate_all ts r = submit_all ts r.
Proof.
  revert r. induction ts as [|t ts IH]; intros r Hr; [done|].
  cbn [evaluate_all submit_all]. rewrite evaluate_risk_pass by done.
  rewrite check_order_rate_eq. f_equal. apply IH.
  revert Hr. unfold check_daily_loss_limit. cbn.
  by destruct (_ >? _).
Qed.

(** C10.  [evaluate_risk] is not a read-only check.  Whenever the
    daily-loss check passes it runs [check_order_rate]: the instant of the
    evaluation becomes [last_order_time], [orders_this_minute] is incremented
    (or restarted at 1), and the object is never left as it was.  A series of
    evaluations therefore gets the very verdicts that the same series of
    order submissions would get. *)
Theorem evaluate_risk_counts_as_order
    (now : datetime) (r : RiskLimits) (ts : list datetime) :
  (check_daily_loss_limit r).1 = true →
  evaluate_risk now r = check_order_rate now r
  ∧ last_order_time (evaluate_risk now r).2 = Some now
  ∧ orders_this_minute (evaluate_risk now r).2 = next_count now r
  ∧ (evaluate_risk now r).2 ≠ r
  ∧ evaluate_all ts r = submit_all ts r.
Proof.
  intros Hpass. rewrite evaluate_risk_pass by done.
  rewrite check_order_rate_eq. cbn [fst snd].
  repeat split; [|by apply evaluate_all_pass].
  intros E.
  assert (Ht : last_order_time r = Some now) by (by rewrite <- E).
  assert (Hc : orders_this_minute r = next_count now r) by (by rewrite <- E at 1).
  unfold next_count in Hc. rewrite Ht in Hc.
  rewrite bool_decide_eq_true_2 in Hc; [lia|].
  unfold timedelta_seconds. by rewrite Z.sub_diag.
Qed.

(** The theorem on the limiter of the usage example, evaluated three times
    within two seconds. *)
Lemma evaluate_risk_counts_as_order_witness :
  let r := init 100000 50000 10000 (-20000) 2 in
  let ts := [of_seconds 0; of_seconds 1; of_seconds 2] in
  evaluate_risk (of_seconds 0) r = check_order_rate (of_seconds 0) r
  ∧ last_order_time (evaluate_risk (of_seconds 0) r).2 = Some (of_seconds 0)
  ∧ orders_this_minute (evaluate_risk (of_seconds 0) r).2 = 1
  ∧ (evaluate_risk (of_seconds 0) r).2 ≠ r
  ∧ evaluate_all ts r = submit_all ts r.
Proof.
  apply (evaluate_risk_counts_as_order
           (of_seconds 0) (init 100000 50000 10000 (-20000) 2)
           [of_seconds 0; of_seconds 1; of_seconds 2]).
  reflexivity.
Defined.

(** C7 (as amended).  On a tracker whose [max_loss_per_day] is not
    negative, whatever losses and breaches were recorded, after
    [reset_daily_limits] the daily-loss check passes and leaves the breached
    flag cleared. *)
Theorem reset_then_check_passes (r : RiskLimits) :
  0 ≤ max_loss_per_day r →
  (check_daily_loss_limit (reset_daily_limits r)).1 = true
  ∧ daily_limit_breached (check_daily_loss_limit (reset_daily_limits r)).2 = false
  ∧ current_loss_per_day (check_daily_loss_limit (reset_daily_limits r)).2 = 0.
Proof.
  intros Hmax. unfold check_daily_loss_limit.
  change (current_loss_per_day (reset_daily_limits r)) with 0.
  change (max_loss_per_day (reset_daily_limits r)) with (max_loss_per_day r).
  change (Z.abs 0) with 0.
  destruct (Z.gtb_spec 0 (max_loss_per_day r)); [lia | done].
Qed.

(** The theorem on a tracker that has breached its daily limit. *)
Lemma reset_then_check_passes_witness :
  let r := (check_daily_loss_limit
              (update_trade_loss 70000 (init 100000 50000 10000 (-20000) 5))).2 in
  daily_limit_breached r = true
  ∧ (check_daily_loss_limit (reset_daily_limits r)).1 = true
  ∧ daily_limit_breached (check_daily_loss_limit (reset_daily_limits r)).2 = false
  ∧ current_loss_per_day (check_daily_loss_limit (reset_daily_limits r)).2 = 0.
Proof.
  split; [reflexivity|].
  apply (reset_then_check_passes
           (check_daily_loss_limit
              (update_trade_loss 70000 (init 100000 50000 10000 (-20000) 5))).2).
  vm_compute. discriminate.
Defined.

(** C7 (the claim as stated fails).  A tracker constructed with a negative
    [max_loss_per_day]: right after [reset_daily_limits] the loss is 0, its
    absolute value is above the limit, and the check fails and sets the
    breached flag. *)
Lemma reset_then_check_fails_below_zero_limit :
  let r := reset_daily_limits (init 100000 (-1) 10000 (-20000) 5) in
  current_loss_per_day r = 0
  ∧ daily_limit_breached r = false
  ∧ (check_daily_loss_limit r).1 = false
  ∧ daily_limit_breached (check_daily_loss_limit r).2 = true.
Proof. repeat split; vm_compute; reflexivity. Qed.

(** No call other than [reset_daily_limits] clears the breached flag. *)
Lemma exec_keeps_breach (c : call) (r : RiskLimits) :
  is_reset c = false →
  daily_limit_breached r = true →
  daily_limit_breached (exec c r) = true.
Proof.
  intros Hc Hb. destruct c; try done; cbn [exec].
  - unfold check_daily_loss_limit. by destruct (_ >? _).
  - by rewrite check_order_rate_eq.
  - rewrite evaluate_risk_eq. destruct (_ >? _); [done|].
    by rewrite check_order_rate_eq.
Qed.

Lemma exec_all_keeps_breach (cs : list call) (r : RiskLimits) :
  forallb (fun c => negb (is_reset c)) cs = true →
  daily_limit_breached r = true →
  daily_limit_breached (exec_all cs r) = true.
Proof.
  revert r. induction cs as [|c cs IH]; intros r Hcs Hb; [done|].
  cbn [forallb] in Hcs. apply andb_prop in Hcs as [Hc Hcs].
  cbn. apply IH; [done|]. apply exec_keeps_breach; [|done].
  by destruct (is_reset c).
Qed.

(** [update_trade_loss] over a series of trades. *)
Lemma update_trade_loss_series (losses : list Z) (r : RiskLimits) :
  let r' := foldl (fun r l => update_trade_loss l r) r losses in
  current_trade_loss r' = current_trade_loss r + foldr Z.add 0 losses
  ∧ current_loss_per_day r' = current_loss_per_day r + foldr Z.add 0 losses.
Proof.
  revert r. induction losses as [|l ls IH]; intros r; cbn.
  - lia.
  - destruct (IH (update_trade_loss l r)) as [-> ->]. cbn. lia.
Qed.

Lemma can_take_position_spec (position_size : Z) (r : RiskLimits) :
  can_take_position position_size r = false
  ↔ Z.abs (current_position_size r + position_size) > max_position_size r.
Proof.
  unfold can_take_position. destruct (Z.gtb_spec (Z.abs (current_position_size r + position_size)) (max_position_size r)); split; (done || lia).
Qed.

End LimitsFacts.

(** * Properties of [RiskManager] *)

Section RiskMgrFacts.
Import RiskMgr.
Variable pow_half : Qc -> Qc.

(** The loop over the custom limits reports its first failing limit only. *)
Lemma check_custom_limits_spec (limits : list Limit) (m : RiskManager) :
  let failing :=
    omap (fun limit =>
            if _check_custom_limit pow_half limit m then None
            else Some (CustomLimitExceeded (name limit))) limits in
  check_custom_limits pow_half limits m
  = (bool_decide (failing = []), take 1 failing).
Proof.
  induction limits as [|limit rest IH]; [done|].
  cbn [check_custom_limits omap list_omap].
  destruct (_check_custom_limit pow_half limit m); cbn [negb]; [exact IH | done].
Qed.

Lemma check_risk_limits_spec (m : RiskManager) :
  check_risk_limits pow_half m
  = (bool_decide (all_violations pow_half m = []),
     take 1 (all_violations pow_half m)).
Proof.
  unfold check_risk_limits, all_violations.
  destruct (_ >? _); [done|].
  destruct (_ >? _); [done|].
  apply check_custom_limits_spec.
Qed.

(** C2 (as amended).  [check_risk_limits] examines the aggregate position
    size, the daily loss and each custom limit in that order and stops at
    the first violated rule: it returns [True] exactly when no rule is
    violated, and otherwise reports the first violated rule and no other. *)
Theorem check_risk_limits_first_violation (m : RiskManager) :
  ((check_risk_limits pow_half m).1 = true ↔ all_violations pow_half m = [])
  ∧ (check_risk_limits pow_half m).2 = take 1 (all_violations pow_half m).
Proof.
  rewrite check_risk_limits_spec. cbn [fst snd]. split; [|done].
  apply bool_decide_eq_true.
Qed.

(** [check_risk_limits] passes exactly when none of its rules is
    violated. *)
Lemma check_risk_limits_true (m : RiskManager) :
  (check_risk_limits pow_half m).1 = true
  ↔ Z.abs (current_position_size m) ≤ max_position_size m
    ∧ current_loss m ≤ max_daily_loss m
    ∧ Forall (fun limit => _check_custom_limit pow_half limit m = true)
             (risk_limits m).
Proof.
  rewrite check_risk_limits_spec. cbn [fst]. rewrite bool_decide_eq_true.
  unfold all_violations.
  destruct (Z.gtb_spec (Z.abs (current_position_size m)) (max_position_size m)).
  { split; [done | lia]. }
  destruct (Z.gtb_spec (current_loss m) (max_daily_loss m)).
  { split; [done | lia]. }
  cbn [app]. induction (risk_limits m) as [|l ls IH].
  - cbn. split; [intros _; repeat split; (lia || constructor) | done].
  - cbn [omap list_omap].
    destruct (_check_custom_limit pow_half l m) eqn:E.
    + rewrite IH. split; intros (? & ? & Hf); repeat split; try done.
      * by constructor.
      * by apply Forall_cons in Hf as [_ ?].
    + split; [done|]. intros (_ & _ & Hf).
      apply Forall_cons in Hf as [Hl _]. congruence.
Qed.

(** The rules after the first never report the total position size. *)
Lemma later_rules_silent_on_position_size (m : RiskManager) :
  TotalPositionSizeExceedsLimit ∉
    take 1 ((if current_loss m >? max_daily_loss m
             then [DailyLossExceedsLimit] else [])
            ++ omap (fun limit =>
                       if _check_custom_limit pow_half limit m then None
                       else Some (CustomLimitExceeded (name limit)))
                    (risk_limits m)).
Proof.
  intros Hin%subseteq_take. destruct (_ >? _).
  - apply elem_of_cons in Hin as [|Hin]; [done|].
    apply list_elem_of_omap in Hin as (l & _ & Hl).
    by destruct (_check_custom_limit _ _ _).
  - apply list_elem_of_omap in Hin as (l & _ & Hl).
    by destruct (_check_custom_limit _ _ _).
Qed.

(** C5.  The position-size limit is inclusive.  [can_take_position] refuses
    a position exactly when the absolute size would be strictly above
    [max_position_size].  [check_risk_limits] returns [False] with the total
    position size as the reported rule exactly when the absolute aggregate
    size is strictly above [max_position_size]: one unit over fails, and a
    size equal to the limit is never flagged and passes whenever the daily
    loss and the custom limits hold. *)
Theorem position_limit_inclusive
    (position_size : Z) (r : Limits.RiskLimits) (m : RiskManager) :
  (Limits.can_take_position position_size r = false
   ↔ Z.abs (Limits.current_position_size r + position_size)
     > Limits.max_position_size r)
  ∧ (TotalPositionSizeExceedsLimit ∈ (check_risk_limits pow_half m).2
     ↔ Z.abs (current_position_size m) > max_position_size m)
  ∧ ((check_risk_limits pow_half m).2 = [TotalPositionSizeExceedsLimit]
     ↔ Z.abs (current_position_size m) > max_position_size m)
  ∧ (check_risk_limits pow_half m = (false, [TotalPositionSizeExceedsLimit])
     ↔ Z.abs (current_position_size m) > max_position_size m)
  ∧ (Z.abs (current_position_size m) = max_position_size m + 1 →
     (check_risk_limits pow_half m).1 = false)
  ∧ ((check_risk_limits pow_half m).1 = true
     ↔ Z.abs (current_position_size m) ≤ max_position_size m
       ∧ current_loss m ≤ max_daily_loss m
       ∧ Forall (fun limit => _check_custom_limit pow_half limit m = true)
                (risk_limits m)).
Proof.
  split; [apply can_take_position_spec|].
  assert (Hover : Z.abs (current_position_size m) > max_position_size m →
                  check_risk_limits pow_half m
                  = (false, [TotalPositionSizeExceedsLimit])).
  { intros Hgt. unfold check_risk_limits.
    destruct (Z.gtb_spec (Z.abs (current_position_size m)) (max_position_size m));
      [done | lia]. }
  assert (Hwithin : Z.abs (current_position_size m) ≤ max_position_size m →
                    TotalPositionSizeExceedsLimit
                    ∉ (check_risk_limits pow_half m).2).
  { intros Hle. rewrite check_risk_limits_spec. cbn [snd].
    unfold all_violations.
    destruct (Z.gtb_spec (Z.abs (current_position_size m)) (max_position_size m));
      [lia|].
    apply later_rules_silent_on_position_size. }
  destruct (Z_le_gt_dec (Z.abs (current_position_size m)) (max_position_size m))
    as [Hle|Hgt].
  - specialize (Hwithin Hle).
    split; [split; [intros H; by exfalso | lia]|].
    split.
    { split; [|lia]. intros H. exfalso. apply Hwithin.
      rewrite H. apply elem_of_cons; by left. }
    split.
    { split; [|lia]. intros H. exfalso. apply Hwithin.
      rewrite H. apply elem_of_cons; by left. }
    split; [lia|]. apply check_risk_limits_true.
  - specialize (Hover Hgt). rewrite Hover. cbn [fst snd].
    split; [split; [done | intros _; apply elem_of_cons; by left]|].
    split; [done|]. split; [done|]. split; [done|].
    split; [done | intros [? _]; lia].
Qed.

End RiskMgrFacts.

(** C2 (the claim as stated fails).  A state that violates both the
    position-size rule and the daily-loss rule: the evaluation stops at the
    first and reports it alone. *)
Lemma check_risk_limits_short_circuits :
  let m := RiskMgr.record_trade 0 (RiskMgr.mkTrade "AAPL" 0 6000)
             (RiskMgr.update_position 1100 "AAPL" (RiskMgr.init 0 1000 5000 [])) in
  RiskMgr.all_violations RiskMgr.no_pow_half m
  = [RiskMgr.TotalPositionSizeExceedsLimit; RiskMgr.DailyLossExceedsLimit]
  ∧ RiskMgr.check_risk_limits RiskMgr.no_pow_half m
    = (false, [RiskMgr.TotalPositionSizeExceedsLimit]).
Proof. split; vm_compute; reflexivity. Qed.

Section Drawdown.
Import RiskMgr.

Lemma peak_of_snoc (peak : peak_value) (seen : list Z) (x : Z) :
  peak_of peak seen → peak_of (Finite (peak_max peak x)) (seen ++ [x]).
Proof.
  intros H c. rewrite foldr_app. cbn [foldr]. rewrite H.
  destruct peak; cbn [peak_max]; lia.
Qed.

Lemma decline_at_snoc (peak : peak_value) (seen : list Z) (x : Z) :
  peak_of peak seen → decline_at (seen ++ [x]) = peak_max peak x - x.
Proof.
  intros H. unfold decline_at. rewrite last_snoc, foldr_app. cbn [foldr].
  rewrite H. destruct peak; cbn [peak_max]; lia.
Qed.

Lemma take_one_more (seen : list Z) (x : Z) (rest : list Z) :
  take (S (length seen)) (seen ++ x :: rest) = seen ++ [x].
Proof. induction seen as [|y seen IH]; cbn; [by rewrite take_0 | by f_equal]. Qed.

Lemma foldr_max_nonneg (l : list Z) : 0 ≤ foldr Z.max 0 l.
Proof. induction l; cbn [foldr]; lia. Qed.

(** The loop, resumed after the profits [seen], returns the largest of
    [max_drawdown] and the declines at the prefixes still to come. *)
Lemma max_drawdown_loop_spec (rest : list Trade) (seen : list Z)
    (peak : peak_value) (max_drawdown : Z) :
  peak_of peak seen →
  0 ≤ max_drawdown →
  max_drawdown_loop peak max_drawdown rest
  = Z.max max_drawdown
      (foldr Z.max 0
         (map (fun n => decline_at (take n (seen ++ map profit rest)))
              (seq (S (length seen)) (length rest)))).
Proof.
  revert seen peak max_drawdown.
  induction rest as [|t rest IH]; intros seen peak md Hpeak Hmd.
  - cbn. lia.
  - cbn [max_drawdown_loop map length seq foldr].
    rewrite (IH (seen ++ [profit t])) by (by apply peak_of_snoc || lia).
    rewrite <- (assoc_L (++)). cbn [app].
    rewrite take_one_more.
    rewrite (decline_at_snoc peak) by done.
    rewrite length_app. cbn [length].
    replace (length seen + 1)%nat with (S (length seen)) by lia.
    lia.
Qed.

(** What [_calculate_max_drawdown] computes: the largest decline of the
    series of per-trade profits themselves. *)
Lemma calculate_max_drawdown_per_trade (m : RiskManager) :
  _calculate_max_drawdown m = largest_decline (map profit (trade_history m)).
Proof.
  unfold _calculate_max_drawdown, largest_decline.
  rewrite (max_drawdown_loop_spec _ [] NegInf 0) by (done || lia).
  rewrite length_map. cbn [app length].
  pose proof (foldr_max_nonneg
    (map (fun n => decline_at (take n (map profit (trade_history m))))
         (seq 1 (length (trade_history m))))).
  lia.
Qed.

End Drawdown.

(** C6 (the code departs from the claim).  On the three trades of the usage
    example of [risk_manager.py], with profits 500, 700 and 200, the
    cumulative profit 500, 1200, 1400 never declines, so the maximum drawdown
    is 0; [_calculate_max_drawdown] compares each trade's own profit with the
    largest single profit so far and returns 700 - 200 = 500. *)
Theorem max_drawdown_usage_example :
  let m := RiskMgr.record_trade 0 (RiskMgr.mkTrade "AAPL" 200 600)
             (RiskMgr.record_trade 0 (RiskMgr.mkTrade "GOOG" 700 300)
                (RiskMgr.record_trade 0 (RiskMgr.mkTrade "AAPL" 500 100)
                   (RiskMgr.init 0 1000 5000 []))) in
  map RiskMgr.profit (RiskMgr.trade_history m) = [500; 700; 200]
  ∧ RiskMgr.cumulative 0 (map RiskMgr.profit (RiskMgr.trade_history m))
    = [500; 1200; 1400]
  ∧ RiskMgr.cumulative_max_drawdown m = 0
  ∧ RiskMgr._calculate_max_drawdown m = 500.
Proof. repeat split; vm_compute; reflexivity. Qed.

Section Positions.
Import RiskMgr.

Lemma lookup_setdefault {V} (k j : string) (v0 : V) (d : gmap string V) :
  setdefault k v0 d !! j
  = if decide (k = j) then Some (default v0 (d !! k)) else d !! j.
Proof.
  unfold setdefault. case_decide as Hk; subst.
  - destruct (d !! j) eqn:E; [done|]. by rewrite lookup_insert_eq.
  - destruct (d !! k) eqn:E; [done|]. by rewrite lookup_insert_ne.
Qed.

(** [d[k] += c] after [if k not in d: d[k] = 0] writes the old value, or 0,
    plus [c]. *)
Lemma accumulate_insert (k : string) (c : Z) (d : gmap string Z) :
  alter (fun v => v + c) k (setdefault k 0 d)
  = <[k := default 0 (d !! k) + c]> d.
Proof.
  unfold setdefault. destruct (d !! k) as [v|] eqn:E; cbn.
  - apply map_eq. intros j. rewrite lookup_alter, lookup_insert.
    case_decide; subst; [by rewrite E | done].
  - by rewrite alter_insert_eq.
Qed.

Lemma tracker_sum_insert_fresh (k : string) (v : Z) (d : gmap string Z) :
  d !! k = None → tracker_sum (<[k := v]> d) = v + tracker_sum d.
Proof.
  intros H. unfold tracker_sum. rewrite map_fold_insert_L; [done| |done].
  intros. lia.
Qed.

Lemma tracker_sum_insert (k : string) (v : Z) (d : gmap string Z) :
  tracker_sum (<[k := v]> d) = tracker_sum d - default 0 (d !! k) + v.
Proof.
  destruct (d !! k) as [w|] eqn:E; cbn.
  - rewrite <- (insert_delete_eq d).
    rewrite tracker_sum_insert_fresh by apply lookup_delete_eq.
    rewrite <- (insert_delete_id d k w) at 2 by done.
    rewrite tracker_sum_insert_fresh by apply lookup_delete_eq. lia.
  - rewrite tracker_sum_insert_fresh by done. lia.
Qed.

Lemma update_position_tracker (c : Z) (sym : string) (m : RiskManager) :
  position_tracker (update_position c sym m)
  = <[sym := default 0 (position_tracker m !! sym) + c]> (position_tracker m).
Proof. unfold update_position. cbn. apply accumulate_insert. Qed.

(** Every [update_position] keeps the aggregate equal to the sum of the
    per-symbol positions. *)
Lemma update_position_consistent (c : Z) (sym : string) (m : RiskManager) :
  position_consistent m → position_consistent (update_position c sym m).
Proof.
  unfold position_consistent. intros H.
  rewrite update_position_tracker, tracker_sum_insert.
  unfold update_position. cbn. rewrite H. lia.
Qed.

(** C9 (as amended).  [reset_risk] zeroes the aggregate position size and
    the loss, clears the trade history, the daily-loss tracker and the trade
    metrics, and leaves the per-symbol position tracker as it is.  Every
    [update_position] preserves "the aggregate equals the sum of the
    per-symbol positions"; after [reset_risk] it holds exactly when the
    per-symbol positions sum to zero, so the reset breaks it whenever they do
    not. *)
Theorem reset_risk_position_sum (m : RiskManager) :
  (current_position_size (reset_risk m) = 0
   ∧ current_loss (reset_risk m) = 0
   ∧ trade_history (reset_risk m) = []
   ∧ daily_loss_tracker (reset_risk m) = ∅
   ∧ trade_metrics (reset_risk m) = ∅
   ∧ position_tracker (reset_risk m) = position_tracker m)
  ∧ (∀ c sym, position_consistent m →
              position_consistent (update_position c sym m))
  ∧ (position_consistent (reset_risk m)
     ↔ tracker_sum (position_tracker m) = 0).
Proof.
  split; [done|]. split; [intros; by apply update_position_consistent|].
  unfold position_consistent. cbn. split; intros H; lia.
Qed.

(** The per-symbol daily loss after [record_trade]. *)
Lemma record_trade_daily_loss (today : date) (t : Trade) (sym : string)
    (m : RiskManager) :
  daily_loss_for_symbol sym (record_trade today t m)
  = (if bool_decide (today ≠ start_of_day m) then 0
     else daily_loss_for_symbol sym m)
    + (if bool_decide (sym = symbol t) then loss t else 0).
Proof.
  unfold daily_loss_for_symbol, record_trade, _track_trade_metrics,
    _update_daily_loss.
  cbn. rewrite accumulate_insert, lookup_insert.
  destruct (bool_decide (today ≠ start_of_day m)); cbn.
  - rewrite lookup_empty. cbn.
    case_decide; subst; [by rewrite bool_decide_eq_true_2 | by rewrite bool_decide_eq_false_2].
  - case_decide; subst; cbn.
    + by rewrite bool_decide_eq_true_2.
    + rewrite bool_decide_eq_false_2 by done. lia.
Qed.

End Positions.

(** C9 (the claim as stated fails).  A long and a short position that
    cancel: per-symbol positions are nonzero at the time of the reset, and
    the aggregate still equals their sum after it. *)
Lemma reset_risk_keeps_sum_when_positions_cancel :
  let m := RiskMgr.update_position (-5) "GOOG"
             (RiskMgr.update_position 5 "AAPL" (RiskMgr.init 0 1000 5000 [])) in
  RiskMgr.position_tracker m !! "AAPL" = Some 5
  ∧ RiskMgr.position_tracker m !! "GOOG" = Some (-5)
  ∧ RiskMgr.position_consistent m
  ∧ RiskMgr.position_consistent (RiskMgr.reset_risk m).
Proof. repeat split; vm_compute; reflexivity. Qed.

Section Losses.
Import RiskMgr.

(** C8 (as amended).  [update_trade_loss] adds the loss of the trade to
    [current_trade_loss] just as it adds it to the daily loss: over any
    series of trades both grow by the sum of the losses, so
    [current_trade_loss] is cumulative and not the loss of the most recent
    trade.  The per-symbol daily loss of [RiskManager.record_trade]
    accumulates within the day and restarts when the date has changed. *)
Theorem trade_loss_accumulates
    (l : Z) (losses : list Z) (r : Limits.RiskLimits)
    (today : date) (t : Trade) (sym : string) (m : RiskManager) :
  (Limits.current_trade_loss (Limits.update_trade_loss l r)
   = Limits.current_trade_loss r + l
   ∧ Limits.current_loss_per_day (Limits.update_trade_loss l r)
     = Limits.current_loss_per_day r + l)
  ∧ (let r' := foldl (fun r l => Limits.update_trade_loss l r) r losses in
     Limits.current_trade_loss r'
     = Limits.current_trade_loss r + foldr Z.add 0 losses
     ∧ Limits.current_loss_per_day r'
       = Limits.current_loss_per_day r + foldr Z.add 0 losses)
  ∧ daily_loss_for_symbol sym (record_trade today t m)
    = (if bool_decide (today ≠ start_of_day m) then 0
       else daily_loss_for_symbol sym m)
      + (if bool_decide (sym = symbol t) then loss t else 0).
Proof.
  split; [done|]. split; [apply update_trade_loss_series|].
  apply record_trade_daily_loss.
Qed.

End Losses.

(** C8 (the claim as stated fails).  Two trades losing 100 and then 200:
    [current_trade_loss] is 300, not the 200 of the most recent trade. *)
Lemma current_trade_loss_not_most_recent :
  let r := Limits.update_trade_loss 200
             (Limits.update_trade_loss 100
                (Limits.init 100000 50000 10000 (-20000) 5)) in
  Limits.current_trade_loss r = 300
  ∧ Limits.current_loss_per_day r = 300.
Proof. split; reflexivity. Qed.

Section Halting.
Import RiskMgr.
Variable pow_half : Qc -> Qc.

(** The stop-loss enforcement resets the risk state by itself. *)
Lemma monitoring_resets_on_stop_loss (m : RiskManager) :
  _enforce_position_limits m = true →
  max_daily_loss m ≤ current_loss m →
  real_time_risk_monitoring pow_half m = (false, reset_risk m).
Proof.
  intros Hpos Hloss. unfold real_time_risk_monitoring, _enforce_stop_loss.
  rewrite Hpos. cbn [negb].
  destruct (Z.geb_spec (current_loss m) (max_daily_loss m)); [done | lia].
Qed.

(** C3 (as amended).  The breached flag of [RiskLimits] is sticky: once
    set, no series of calls without [reset_daily_limits] clears it.
    [RiskManager] keeps no such state: when the loss has reached
    [max_daily_loss], the monitoring call that reports the breach runs
    [reset_risk] itself and leaves the loss at zero. *)
Theorem breach_cleared_only_by_reset_in_limits
    (cs : list Limits.call) (r : Limits.RiskLimits) (m : RiskManager) :
  forallb (fun c => negb (Limits.is_reset c)) cs = true →
  Limits.daily_limit_breached r = true →
  _enforce_position_limits m = true →
  max_daily_loss m ≤ current_loss m →
  Limits.daily_limit_breached (Limits.exec_all cs r) = true
  ∧ real_time_risk_monitoring pow_half m = (false, reset_risk m)
  ∧ current_loss (real_time_risk_monitoring pow_half m).2 = 0.
Proof.
  intros Hcs Hb Hpos Hloss. split; [by apply exec_all_keeps_breach|].
  by rewrite monitoring_resets_on_stop_loss.
Qed.

End Halting.

(** The theorem on a limiter that breached its daily limit and then recorded
    a gain, was evaluated and closed its position; and on a manager whose
    loss has reached the limit. *)
Lemma breach_cleared_only_by_reset_in_limits_witness :
  let r := (Limits.check_daily_loss_limit
              (Limits.update_trade_loss 70000
                 (Limits.init 100000 50000 10000 (-20000) 5))).2 in
  let cs := [Limits.UpdateTradeLoss (-60000); Limits.EvaluateRisk 0;
             Limits.CheckDailyLossLimit; Limits.ClosePosition 1 0] in
  let m := RiskMgr.record_trade 0 (RiskMgr.mkTrade "AAPL" 0 5000)
             (RiskMgr.init 0 1000 5000 []) in
  Limits.daily_limit_breached (Limits.exec_all cs r) = true
  ∧ RiskMgr.real_time_risk_monitoring RiskMgr.no_pow_half m
    = (false, RiskMgr.reset_risk m)
  ∧ RiskMgr.current_loss
      (RiskMgr.real_time_risk_monitoring RiskMgr.no_pow_half m).2 = 0.
Proof.
  apply (breach_cleared_only_by_reset_in_limits RiskMgr.no_pow_half
           [Limits.UpdateTradeLoss (-60000); Limits.EvaluateRisk 0;
            Limits.CheckDailyLossLimit; Limits.ClosePosition 1 0]
           (Limits.check_daily_loss_limit
              (Limits.update_trade_loss 70000
                 (Limits.init 100000 50000 10000 (-20000) 5))).2
           (RiskMgr.record_trade 0 (RiskMgr.mkTrade "AAPL" 0 5000)
              (RiskMgr.init 0 1000 5000 []))).
  - reflexivity.
  - reflexivity.
  - vm_compute; reflexivity.
  - vm_compute. discriminate.
Defined.

(** C3 (the claim as stated fails).  A manager whose loss has reached the
    daily limit: the first monitoring call halts trading, and the second,
    with no reset called in between, passes. *)
Lemma stop_loss_recovers_without_reset :
  let m := RiskMgr.record_trade 0 (RiskMgr.mkTrade "AAPL" 0 5000)
             (RiskMgr.init 0 1000 5000 []) in
  let first := RiskMgr.real_time_risk_monitoring RiskMgr.no_pow_half m in
  let second := RiskMgr.real_time_risk_monitoring RiskMgr.no_pow_half first.2 in
  RiskMgr.current_loss m = 5000
  ∧ first.1 = false
  ∧ RiskMgr.current_loss first.2 = 0
  ∧ second.1 = true.
Proof. repeat split; vm_compute; reflexivity. Qed.

(** * Properties of [RealTimeRiskMonitor] *)

Section MonitorFacts.
Import Monitor.
Variable network : nat -> post_outcome.

Lemma calls_app (kind : action -> bool) (tr1 tr2 : list action) :
  calls kind (tr1 ++ tr2) = (calls kind tr1 + calls kind tr2)%nat.
Proof. unfold calls. by rewrite List.filter_app, length_app. Qed.

Lemma calls_enforcement (rules : list string) :
  calls is_halt (enforcement rules) = length rules
  ∧ calls is_liquidate (enforcement rules) = length rules
  ∧ calls is_alert (enforcement rules) = length rules.
Proof.
  induction rules as [|msg rules (IH1 & IH2 & IH3)]; [done|].
  change (enforcement (msg :: rules))
    with ([HaltTrading; LiquidatePositions; SendAlert msg] ++ enforcement rules).
  rewrite !calls_app, IH1, IH2, IH3. done.
Qed.

Lemma enforcement_app (rules1 rules2 : list string) :
  enforcement (rules1 ++ rules2) = enforcement rules1 ++ enforcement rules2.
Proof. unfold enforcement. apply flat_map_app. Qed.

Section Answering.
(** The alert endpoint always answers. *)
Hypothesis answers : ∀ n, network n ≠ Raises.

Lemma trigger_risk_alert_answered (message : string) (tr : list action) :
  trigger_risk_alert network message tr = (tr ++ enforcement [message], inr tt).
Proof.
  unfold trigger_risk_alert, halt_trading, liquidate_positions, send_alert,
    invoke, mbind, M_bind, bind. cbn.
  rewrite <- !(assoc_L (++)). cbn.
  destruct (network _) as [status|] eqn:E; [|by apply answers in E].
  by destruct (status =? 200).
Qed.

Lemma conditional_alert (b : bool) (message : string) (tr : list action) :
  (if b then trigger_risk_alert network message else ret tt) tr
  = (tr ++ enforcement (if b then [message] else []), inr tt).
Proof.
  destruct b; [apply trigger_risk_alert_answered|].
  unfold ret. cbn. by rewrite (right_id_L [] (++)).
Qed.

(** The loop over the asset classes, when each has a configured limit. *)
Lemma asset_class_loop (limits : gmap string Z) (exposures : list (string * Z))
    (tr : list action) :
  Forall (fun e => is_Some (limits !! e.1)) exposures →
  for_each exposures (fun '(asset_class, exposure) =>
    limit ← getitem limits asset_class;
    if exposure >? limit
    then trigger_risk_alert network
           ("Max exposure in " +:+ asset_class +:+ " exceeded")
    else ret tt) tr
  = (tr ++ enforcement
            (omap (fun '(asset_class, exposure) =>
                     match limits !! asset_class with
                     | Some limit =>
                         if exposure >? limit
                         then Some ("Max exposure in " +:+ asset_class
                                    +:+ " exceeded")
                         else None
                     | None => None
                     end) exposures),
     inr tt).
Proof.
  revert tr. induction exposures as [|[asset_class exposure] rest IH];
    intros tr Hcfg.
  - cbn. unfold ret. by rewrite (right_id_L [] (++)).
  - apply Forall_cons in Hcfg as [[limit Hlimit] Hcfg]. cbn in Hlimit.
    cbn [for_each omap list_omap]. unfold mbind at 1, M_bind at 1, bind at 1.
    unfold mbind at 1, M_bind at 1, bind at 1, getitem.
    rewrite Hlimit. unfold ret at 1. rewrite conditional_alert.
    rewrite IH by done. rewrite <- (assoc_L (++)), <- enforcement_app.
    by destruct (exposure >? limit).
Qed.

(** An evaluation that nothing interrupts triggers the enforcement once
    for each violated rule. *)
Lemma check_risk_limits_answered (m : RealTimeRiskMonitor) (tr : list action) :
  limits_configured m →
  check_risk_limits network m tr = (tr ++ enforcement (violated_rules m), inr tt).
Proof.
  intros Hcfg. unfold check_risk_limits, violated_rules.
  unfold mbind at 1, M_bind at 1, bind at 1. rewrite conditional_alert.
  unfold mbind at 1, M_bind at 1, bind at 1. rewrite conditional_alert.
  rewrite asset_class_loop by done.
  by rewrite !enforcement_app, !(assoc_L (++)).
Qed.

Lemma monitor_risk_answered (snapshots : list RealTimeRiskMonitor)
    (tr : list action) :
  Forall limits_configured snapshots →
  monitor_risk network snapshots tr
  = tr ++ flat_map (fun m => enforcement (violated_rules m)) snapshots.
Proof.
  revert tr. induction snapshots as [|m rest IH]; intros tr Hcfg.
  - cbn. by rewrite (right_id_L [] (++)).
  - apply Forall_cons in Hcfg as [Hm Hcfg].
    change (monitor_risk network (m :: rest) tr)
      with (monitor_risk network rest (evaluate network m tr)).
    rewrite IH by done. unfold evaluate.
    rewrite check_risk_limits_answered by done.
    cbn [fst flat_map]. by rewrite (assoc_L (++)).
Qed.

End Answering.

Lemma violations_found_cons (m : RealTimeRiskMonitor)
    (rest : list RealTimeRiskMonitor) :
  violations_found (m :: rest)
  = (length (violated_rules m) + violations_found rest)%nat.
Proof. done. Qed.

Lemma calls_all_enforcement (snapshots : list RealTimeRiskMonitor) :
  let tr := flat_map (fun m => enforcement (violated_rules m)) snapshots in
  calls is_halt tr = violations_found snapshots
  ∧ calls is_liquidate tr = violations_found snapshots
  ∧ calls is_alert tr = violations_found snapshots.
Proof.
  induction snapshots as [|m rest (IH1 & IH2 & IH3)]; [done|].
  cbn [flat_map]. rewrite !calls_app, violations_found_cons.
  destruct (calls_enforcement (violated_rules m)) as (-> & -> & ->).
  by rewrite IH1, IH2, IH3.
Qed.

Lemma failing_evaluations_bound (snapshots : list RealTimeRiskMonitor) :
  (length (filter fails snapshots) ≤ violations_found snapshots)%nat.
Proof.
  induction snapshots as [|m rest IH]; [done|].
  rewrite violations_found_cons, filter_cons.
  case_decide as Hm; cbn [length]; [|lia].
  unfold fails in Hm. destruct (violated_rules m); [done|]. cbn [length]. lia.
Qed.

(** C1 (as amended).  The enforcement keeps no halted state.  Every
    evaluation invokes halt, liquidation and alert, in that order, once for
    each rule it finds violated; over a series of evaluations the number of
    liquidation calls and of alert calls is therefore the total number of
    violations found, which is at least the number of failing evaluations.
    (The alert endpoint answers and every asset class has a configured
    limit, so that no exception cuts an evaluation short.) *)
Theorem enforcement_runs_on_every_failing_evaluation
    (snapshots : list RealTimeRiskMonitor) :
  (∀ n, network n ≠ Raises) →
  Forall limits_configured snapshots →
  let tr := monitor_risk network snapshots [] in
  tr = flat_map (fun m => enforcement (violated_rules m)) snapshots
  ∧ calls is_halt tr = violations_found snapshots
  ∧ calls is_liquidate tr = violations_found snapshots
  ∧ calls is_alert tr = violations_found snapshots
  ∧ (length (filter fails snapshots) ≤ calls is_liquidate tr)%nat
  ∧ (length (filter fails snapshots) ≤ calls is_alert tr)%nat.
Proof.
  intros Hnet Hcfg. cbn zeta.
  rewrite monitor_risk_answered by done. cbn [app].
  destruct (calls_all_enforcement snapshots) as (-> & -> & ->).
  pose proof (failing_evaluations_bound snapshots). done.
Qed.

End MonitorFacts.

(** The theorem on a monitor holding 1100 shares against a limit of 1000,
    evaluated twice: each evaluation finds the position-size rule and the
    asset-class rule violated. *)
Lemma enforcement_runs_on_every_failing_evaluation_witness :
  let limits := Monitor.mkRiskLimitsDict 1000 (-5000) {["Equities" := 100000]} in
  let m := Monitor.update_exposure_by_asset_class
             (Monitor.mkMonitor [("EQAAPL", Monitor.mkPosition 1100 100)]
                                [] 1100 (-11) limits) in
  let tr := Monitor.monitor_risk (fun _ => Monitor.Response 200) [m; m] [] in
  tr = flat_map (fun m => Monitor.enforcement (Monitor.violated_rules m)) [m; m]
  ∧ Monitor.calls Monitor.is_halt tr = 4%nat
  ∧ Monitor.calls Monitor.is_liquidate tr = 4%nat
  ∧ Monitor.calls Monitor.is_alert tr = 4%nat
  ∧ (2 ≤ Monitor.calls Monitor.is_liquidate tr)%nat
  ∧ (2 ≤ Monitor.calls Monitor.is_alert tr)%nat.
Proof.
  assert (H := enforcement_runs_on_every_failing_evaluation
           (fun _ => Monitor.Response 200)
           (let limits := Monitor.mkRiskLimitsDict 1000 (-5000)
                            {["Equities" := 100000]} in
            let m := Monitor.update_exposure_by_asset_class
                       (Monitor.mkMonitor [("EQAAPL", Monitor.mkPosition 1100 100)]
                                          [] 1100 (-11) limits) in
            [m; m])).
  vm_compute in H. vm_compute. apply H.
  - intros n. discriminate.
  - repeat constructor; eauto.
Defined.

(** C1 (the claim as stated fails).  A monitor holding 1100 shares against
    a position limit of 1000: two consecutive failing evaluations, with no
    reset between them, invoke the liquidation twice and send the alert
    twice. *)
Lemma enforcement_not_once_per_halt :
  let limits := Monitor.mkRiskLimitsDict 1000 (-5000) {["Other" := 200000]} in
  let m := Monitor.update_exposure_by_asset_class
             (Monitor.mkMonitor [("AAPL", Monitor.mkPosition 1100 100)]
                                [] 1100 (-11) limits) in
  let tr := Monitor.monitor_risk (fun _ => Monitor.Response 200) [m; m] [] in
  Monitor.exposure_by_asset_class m = [("Other", 110000)]
  ∧ Monitor.total_exposure m = Monitor.sum_abs_quantity (Monitor.positions m)
  ∧ Monitor.violated_rules m = ["Max position size exceeded"]
  ∧ tr = [Monitor.HaltTrading; Monitor.LiquidatePositions;
          Monitor.SendAlert "Max position size exceeded";
          Monitor.HaltTrading; Monitor.LiquidatePositions;
          Monitor.SendAlert "Max position size exceeded"]
  ∧ Monitor.calls Monitor.is_liquidate tr = 2%nat
  ∧ Monitor.calls Monitor.is_alert tr = 2%nat.
Proof. repeat split; vm_compute; reflexivity. Qed.


(** * Further properties of [RiskLimits] *)

Section LimitsRunFacts.
Import Clock Limits LimitsRun.

Lemma can_take_position_true (position_size : Z) (r : RiskLimits) :
  can_take_position position_size r = true
  ↔ Z.abs (current_position_size r + position_size) ≤ max_position_size r.
Proof.
  unfold can_take_position.
  destruct (Z.gtb_spec (Z.abs (current_position_size r + position_size))
                       (max_position_size r)); split; (done || lia).
Qed.

Lemma take_position_if_allowed_bound (now : datetime) (position_size : Z)
    (r : RiskLimits) :
  Z.abs (current_position_size r) ≤ max_position_size r →
  Z.abs (current_position_size (take_position_if_allowed now position_size r))
  ≤ max_position_size r
  ∧ max_position_size (take_position_if_allowed now position_size r)
    = max_position_size r.
Proof.
  intros H. unfold take_position_if_allowed.
  destruct (can_take_position position_size r) eqn:E; [|done].
  apply can_take_position_true in E. done.
Qed.

(** X1.  Positions taken only when [can_take_position] allows them never
    exceed the limit: from a position within [max_position_size], any series
    of guarded updates leaves the absolute position size within it. *)
Theorem guarded_positions_stay_within_limit
    (requests : list (datetime * Z)) (r : RiskLimits) :
  Z.abs (current_position_size r) ≤ max_position_size r →
  Z.abs (current_position_size (take_positions requests r))
  ≤ max_position_size r.
Proof.
  revert r. induction requests as [|[now size] rest IH]; intros r H; [done|].
  cbn [take_positions foldl].
  destruct (take_position_if_allowed_bound now size r H) as [Hb Hm].
  fold (take_positions rest (take_position_if_allowed now size r)).
  rewrite <- Hm. by apply IH; rewrite Hm.
Qed.

(** [guarded_positions_stay_within_limit] on a concrete run. *)
Lemma guarded_positions_stay_within_limit_witness :
  Z.abs (current_position_size
           (take_positions [(0, 50000); (1, 60000); (2, -30000); (3, 80000)]
                           (init 100000 50000 10000 (-20000) 5)))
  ≤ 100000.
Proof.
  apply (guarded_positions_stay_within_limit
           [(0, 50000); (1, 60000); (2, -30000); (3, 80000)]
           (init 100000 50000 10000 (-20000) 5)).
  vm_compute. discriminate.
Defined.

(** X2.  [update_position_size] logs every position it adds: over any series
    of updates the position size grows by the sum of the sizes and the trade
    log grows by the positions in the order they were taken, while
    [close_position] zeroes the size and keeps the log. *)
Theorem position_size_follows_trade_log
    (requests : list (datetime * Z)) (now : datetime) (v : Z) (r : RiskLimits) :
  current_position_size (update_positions requests r)
  = current_position_size r + foldr Z.add 0 (map snd requests)
  ∧ trades (update_positions requests r) = trades r ++ requests
  ∧ current_position_size (close_position now v (update_positions requests r)) = 0
  ∧ trades (close_position now v (update_positions requests r))
    = trades r ++ requests
  ∧ closed_positions (close_position now v (update_positions requests r))
    = closed_positions r ++ [(now, v)].
Proof.
  assert (H : ∀ r, current_position_size (update_positions requests r)
                   = current_position_size r + foldr Z.add 0 (map snd requests)
                   ∧ trades (update_positions requests r) = trades r ++ requests
                   ∧ closed_positions (update_positions requests r)
                     = closed_positions r).
  { induction requests as [|[t size] rest IH]; intros r0.
    - cbn. rewrite (right_id_L [] (++)). split; [lia | done].
    - cbn [update_positions foldl].
      fold (update_positions rest (update_position_size t size r0)).
      destruct (IH (update_position_size t size r0)) as (-> & -> & ->).
      cbn. rewrite <- (assoc_L (++)). split; [lia | done]. }
  destruct (H r) as (H1 & H2 & H3).
  unfold close_position. cbn. rewrite H3. done.
Qed.

(** X3.  [should_trigger_stop_loss] fires exactly when the absolute position
    value is at most the threshold; with a negative threshold, such as the
    -20000 of the usage script, it never fires. *)
Theorem stop_loss_needs_nonnegative_threshold
    (current_position_value : Z) (r : RiskLimits) :
  (should_trigger_stop_loss current_position_value r = true
   ↔ Z.abs current_position_value ≤ stop_loss_threshold r)
  ∧ (stop_loss_threshold r < 0 →
     should_trigger_stop_loss current_position_value r = false).
Proof.
  unfold should_trigger_stop_loss.
  destruct (Z.leb_spec (Z.abs current_position_value) (stop_loss_threshold r));
    (split; [split|]); (done || lia).
Qed.

(** X4.  [check_daily_loss_limit] is idempotent: a second check returns the
    same verdict and leaves the object as the first check left it. *)
Theorem check_daily_loss_limit_idempotent (r : RiskLimits) :
  check_daily_loss_limit (check_daily_loss_limit r).2 = check_daily_loss_limit r.
Proof.
  unfold check_daily_loss_limit.
  destruct (Z.abs (current_loss_per_day r) >? max_loss_per_day r) eqn:E; cbn.
  - cbn in *. by rewrite E.
  - by rewrite E.
Qed.

(** X5.  When the daily loss is over its limit, [evaluate_risk] returns
    [False], sets the breached flag and stops there: the order-rate counter
    and the last order time are left as they were. *)
Theorem evaluate_risk_stops_at_loss_breach (now : datetime) (r : RiskLimits) :
  Z.abs (current_loss_per_day r) > max_loss_per_day r →
  (evaluate_risk now r).1 = false
  ∧ daily_limit_breached (evaluate_risk now r).2 = true
  ∧ orders_this_minute (evaluate_risk now r).2 = orders_this_minute r
  ∧ last_order_time (evaluate_risk now r).2 = last_order_time r.
Proof.
  intros H. rewrite evaluate_risk_eq.
  destruct (Z.gtb_spec (Z.abs (current_loss_per_day r)) (max_loss_per_day r));
    [done | lia].
Qed.

(** [evaluate_risk_stops_at_loss_breach] on a concrete run. *)
Lemma evaluate_risk_stops_at_loss_breach_witness :
  let r := update_trade_loss 70000 (init 100000 50000 10000 (-20000) 5) in
  (evaluate_risk (of_seconds 3) r).1 = false
  ∧ daily_limit_breached (evaluate_risk (of_seconds 3) r).2 = true
  ∧ orders_this_minute (evaluate_risk (of_seconds 3) r).2 = 0
  ∧ last_order_time (evaluate_risk (of_seconds 3) r).2 = None.
Proof.
  apply (evaluate_risk_stops_at_loss_breach (of_seconds 3)
           (update_trade_loss 70000 (init 100000 50000 10000 (-20000) 5))).
  vm_compute. reflexivity.
Defined.

Lemma record_losses_sum (losses : list Z) (r : RiskLimits) :
  current_loss_per_day (record_losses losses r)
  = current_loss_per_day r + foldr Z.add 0 losses
  ∧ max_loss_per_day (record_losses losses r) = max_loss_per_day r.
Proof.
  revert r. induction losses as [|l ls IH]; intros r; cbn.
  - split; [lia | done].
  - fold (record_losses ls (update_trade_loss l r)).
    destruct (IH (update_trade_loss l r)) as [-> ->]. cbn. split; [lia | done].
Qed.

(** X6.  The daily check judges the net sum of what was recorded since the
    reset, in absolute value: after [reset_daily_limits] and any series of
    [update_trade_loss] calls it passes exactly when the absolute value of
    the sum of the recorded amounts is at most [max_loss_per_day], so gains
    offset losses and a large net gain fails the check too. *)
Theorem daily_check_judges_net_sum (losses : list Z) (r : RiskLimits) :
  (check_daily_loss_limit (record_losses losses (reset_daily_limits r))).1 = true
  ↔ Z.abs (foldr Z.add 0 losses) ≤ max_loss_per_day r.
Proof.
  unfold check_daily_loss_limit.
  destruct (record_losses_sum losses (reset_daily_limits r)) as [-> ->].
  change (current_loss_per_day (reset_daily_limits r)) with 0.
  change (max_loss_per_day (reset_daily_limits r)) with (max_loss_per_day r).
  rewrite Z.add_0_l.
  destruct (Z.gtb_spec (Z.abs (foldr Z.add 0 losses)) (max_loss_per_day r));
    split; (done || lia).
Qed.

(** X7.  [reset_daily_limits] does not reset the order-rate counter: with a
    non-negative [max_loss_per_day], [evaluate_risk] right after the reset is
    decided by the order rate alone, and fails when the counter, with this
    call, is over [max_orders_per_minute]. *)
Theorem evaluate_after_reset_is_order_rate (now : datetime) (r : RiskLimits) :
  0 ≤ max_loss_per_day r →
  orders_this_minute (reset_daily_limits r) = orders_this_minute r
  ∧ last_order_time (reset_daily_limits r) = last_order_time r
  ∧ (evaluate_risk now (reset_daily_limits r)).1
    = bool_decide (next_count now r ≤ max_orders_per_minute r).
Proof.
  intros H. split; [done|]. split; [done|].
  rewrite evaluate_risk_eq.
  change (current_loss_per_day (reset_daily_limits r)) with 0.
  change (max_loss_per_day (reset_daily_limits r)) with (max_loss_per_day r).
  change (Z.abs 0) with 0.
  destruct (Z.gtb_spec 0 (max_loss_per_day r)); [lia|].
  by rewrite check_order_rate_eq.
Qed.

(** [evaluate_after_reset_is_order_rate] on a concrete run. *)
Lemma evaluate_after_reset_is_order_rate_witness :
  let r := (check_order_rate (of_seconds 1)
              (check_order_rate (of_seconds 0)
                 (init 100000 50000 10000 (-20000) 2)).2).2 in
  orders_this_minute (reset_daily_limits r) = 2
  ∧ last_order_time (reset_daily_limits r) = Some (of_seconds 1)
  ∧ (evaluate_risk (of_seconds 2) (reset_daily_limits r)).1 = false.
Proof.
  apply (evaluate_after_reset_is_order_rate (of_seconds 2)
           (check_order_rate (of_seconds 1)
              (check_order_rate (of_seconds 0)
                 (init 100000 50000 10000 (-20000) 2)).2).2).
  vm_compute. discriminate.
Defined.

Lemma exec_keeps_limits (c : call) (r : RiskLimits) :
  max_position_size (exec c r) = max_position_size r
  ∧ max_loss_per_day (exec c r) = max_loss_per_day r
  ∧ max_trade_loss (exec c r) = max_trade_loss r
  ∧ stop_loss_threshold (exec c r) = stop_loss_threshold r
  ∧ max_orders_per_minute (exec c r) = max_orders_per_minute r.
Proof.
  destruct c; cbn [exec]; try done.
  - unfold check_daily_loss_limit. by destruct (_ >? _).
  - by rewrite check_order_rate_eq.
  - rewrite evaluate_risk_eq. destruct (_ >? _); [done|].
    by rewrite check_order_rate_eq.
Qed.

(** X8.  The five configured limits are immutable: no series of calls on a
    [RiskLimits] object changes any of them. *)
Theorem limits_are_immutable (cs : list call) (r : RiskLimits) :
  max_position_size (exec_all cs r) = max_position_size r
  ∧ max_loss_per_day (exec_all cs r) = max_loss_per_day r
  ∧ max_trade_loss (exec_all cs r) = max_trade_loss r
  ∧ stop_loss_threshold (exec_all cs r) = stop_loss_threshold r
  ∧ max_orders_per_minute (exec_all cs r) = max_orders_per_minute r.
Proof.
  revert r. induction cs as [|c cs IH]; intros r; [done|].
  cbn [exec_all foldl]. fold (exec_all cs (exec c r)).
  destruct (IH (exec c r)) as (-> & -> & -> & -> & ->).
  apply exec_keeps_limits.
Qed.

Lemma exec_keeps_counter (c : call) (r : RiskLimits) :
  (0 ≤ orders_this_minute r
   ∧ (last_order_time r = None ↔ orders_this_minute r = 0)) →
  0 ≤ orders_this_minute (exec c r)
  ∧ (last_order_time (exec c r) = None ↔ orders_this_minute (exec c r) = 0).
Proof.
  intros [Hpos Hnone].
  assert (Hrate : ∀ now,
            0 ≤ orders_this_minute (check_order_rate now r).2
            ∧ (last_order_time (check_order_rate now r).2 = None
               ↔ orders_this_minute (check_order_rate now r).2 = 0)).
  { intros now. rewrite check_order_rate_eq. cbn.
    assert (1 ≤ next_count now r).
    { unfold next_count. destruct (last_order_time r); [|lia].
      destruct (bool_decide _); lia. }
    split; [lia|]. split; [done | lia]. }
  destruct c; cbn [exec]; try done.
  - unfold check_daily_loss_limit. by destruct (_ >? _).
  - rewrite evaluate_risk_eq. destruct (_ >? _); [done | apply Hrate].
Qed.

(** X9.  On every object reached from a fresh one, [orders_this_minute] is
    never negative and is 0 exactly as long as no order has been checked
    ([last_order_time] is [None]); once an order was checked the counter
    stays at 1 or more. *)
Theorem order_counter_invariant
    (cs : list call) (mps mlpd mtl slt mopm : Z) :
  let r := exec_all cs (init mps mlpd mtl slt mopm) in
  0 ≤ orders_this_minute r
  ∧ (last_order_time r = None ↔ orders_this_minute r = 0).
Proof.
  cbn zeta.
  assert (H : ∀ r, (0 ≤ orders_this_minute r
                    ∧ (last_order_time r = None ↔ orders_this_minute r = 0)) →
                   0 ≤ orders_this_minute (exec_all cs r)
                   ∧ (last_order_time (exec_all cs r) = None
                      ↔ orders_this_minute (exec_all cs r) = 0)).
  { induction cs as [|c cs IH]; intros r Hr; [done|].
    cbn [exec_all foldl]. fold (exec_all cs (exec c r)).
    by apply IH, exec_keeps_counter. }
  apply H. cbn. done.
Qed.

Lemma take_loss_if_allowed_bound (l : Z) (r : RiskLimits) (n : Z) :
  0 ≤ max_trade_loss r →
  Z.abs (current_loss_per_day r) ≤ n * max_trade_loss r →
  Z.abs (current_loss_per_day (take_loss_if_allowed l r))
  ≤ (n + 1) * max_trade_loss r
  ∧ max_trade_loss (take_loss_if_allowed l r) = max_trade_loss r.
Proof.
  intros Hm H. unfold take_loss_if_allowed, can_take_loss.
  destruct (Z.gtb_spec (Z.abs l) (max_trade_loss r)); cbn; split; (done || lia).
Qed.

(** X10.  Losses recorded only when [can_take_loss] allows them are each at
    most [max_trade_loss] in absolute value: after a reset and [n] guarded
    trades the absolute daily loss is at most [n * max_trade_loss]. *)
Theorem guarded_losses_bound (losses : list Z) (r : RiskLimits) :
  0 ≤ max_trade_loss r →
  Z.abs (current_loss_per_day (take_losses losses (reset_daily_limits r)))
  ≤ Z.of_nat (length losses) * max_trade_loss r.
Proof.
  intros Hm.
  assert (H : ∀ (r0 : RiskLimits) (n : Z),
            max_trade_loss r0 = max_trade_loss r →
            Z.abs (current_loss_per_day r0) ≤ n * max_trade_loss r →
            Z.abs (current_loss_per_day (take_losses losses r0))
            ≤ (n + Z.of_nat (length losses)) * max_trade_loss r).
  { induction losses as [|l ls IH]; intros r0 n Hr0 Hn.
    - cbn. by rewrite Z.add_0_r.
    - cbn [take_losses foldl length].
      fold (take_losses ls (take_loss_if_allowed l r0)).
      destruct (take_loss_if_allowed_bound l r0 n) as [Hb Hk];
        [by rewrite Hr0 | by rewrite Hr0 |].
      rewrite Hr0 in Hb, Hk.
      replace (n + Z.of_nat (S (length ls)))
        with ((n + 1) + Z.of_nat (length ls)) by lia.
      by apply IH. }
  specialize (H (reset_daily_limits r) 0).
  rewrite Z.add_0_l in H. apply H; [done|]. cbn. lia.
Qed.

(** [guarded_losses_bound] on a concrete run. *)
Lemma guarded_losses_bound_witness :
  Z.abs (current_loss_per_day
           (take_losses [7000; 12000; -9000; 10000]
              (reset_daily_limits (init 100000 50000 10000 (-20000) 5))))
  ≤ 4 * 10000.
Proof.
  apply (guarded_losses_bound [7000; 12000; -9000; 10000]
           (init 100000 50000 10000 (-20000) 5)).
  vm_compute. discriminate.
Defined.

End LimitsRunFacts.

(** * Further properties of [RiskManager] *)

Section RiskMgrRunFacts.
Import RiskMgr RiskMgrRun.
Variable pow_half : Qc -> Qc.

(** X11.  [update_position] and [symbol_exposure] round-trip: the exposure
    of the updated symbol grows by the change (from 0 for a symbol not yet
    tracked), the exposure of every other symbol is untouched, and the
    aggregate grows by the same change. *)
Theorem symbol_exposure_after_update
    (c : Z) (sym other : string) (m : RiskManager) (today : date)
    (mps mdl : Z) (limits : list Limit) :
  symbol_exposure other (update_position c sym m)
  = symbol_exposure other m + (if bool_decide (other = sym) then c else 0)
  ∧ current_position_size (update_position c sym m)
    = current_position_size m + c
  ∧ symbol_exposure other (init today mps mdl limits) = 0.
Proof.
  split; [|done]. unfold symbol_exposure.
  rewrite update_position_tracker, lookup_insert.
  case_decide; subst.
  - by rewrite bool_decide_eq_true_2.
  - rewrite bool_decide_eq_false_2 by done. lia.
Qed.

(** X12.  [_enforce_position_limits] passes exactly when no tracked symbol
    holds a position whose absolute size is over [max_position_size], in
    whatever order the tracker is walked. *)
Theorem enforce_position_limits_spec (m : RiskManager) :
  _enforce_position_limits m = true
  ↔ ∀ sym size, position_tracker m !! sym = Some size →
                Z.abs size ≤ max_position_size m.
Proof.
  unfold _enforce_position_limits.
  rewrite forallb_forall. split.
  - intros H sym size Hs.
    specialize (H (sym, size)). cbn in H.
    destruct (Z.gtb_spec (Z.abs size) (max_position_size m)); [|done].
    enough (negb true = true) by done.
    apply H. apply list_elem_of_In. by apply elem_of_map_to_list.
  - intros H [sym size] Hin%list_elem_of_In%elem_of_map_to_list.
    specialize (H sym size Hin).
    destruct (Z.gtb_spec (Z.abs size) (max_position_size m)); [lia | done].
Qed.

Lemma real_time_risk_monitoring_spec (m : RiskManager) :
  ((real_time_risk_monitoring pow_half m).1 = true
   ↔ _enforce_position_limits m = true
     ∧ current_loss m < max_daily_loss m
     ∧ Z.abs (current_position_size m) ≤ max_position_size m
     ∧ Forall (fun limit => _check_custom_limit pow_half limit m = true)
              (risk_limits m))
  ∧ (real_time_risk_monitoring pow_half m).2
    = if _enforce_position_limits m && (current_loss m >=? max_daily_loss m)
      then reset_risk m else m.
Proof.
  unfold real_time_risk_monitoring, _enforce_stop_loss.
  destruct (_enforce_position_limits m); cbn [negb andb].
  2: { split; [|done]. split; [done | by intros [? _]]. }
  destruct (Z.geb_spec (current_loss m) (max_daily_loss m)); cbn [fst snd].
  { split; [|done]. split; [done | lia]. }
  split; [|done]. rewrite check_risk_limits_true.
  split; intros Hall; repeat split; (lia || apply Hall).
Qed.

(** X13.  [real_time_risk_monitoring] passes exactly when no symbol and not
    the aggregate is over [max_position_size], the loss is strictly below
    [max_daily_loss] and every custom limit holds.  It leaves the object as
    it was, unless the per-symbol check passes and the loss has reached
    [max_daily_loss], in which case the object is reset. *)
Theorem monitoring_passes_iff (m : RiskManager) :
  ((real_time_risk_monitoring pow_half m).1 = true
   ↔ _enforce_position_limits m = true
     ∧ current_loss m < max_daily_loss m
     ∧ Z.abs (current_position_size m) ≤ max_position_size m
     ∧ Forall (fun limit => _check_custom_limit pow_half limit m = true)
              (risk_limits m))
  ∧ (real_time_risk_monitoring pow_half m).2
    = if _enforce_position_limits m && (current_loss m >=? max_daily_loss m)
      then reset_risk m else m.
Proof. apply real_time_risk_monitoring_spec. Qed.

Lemma Z_sum_app (l1 l2 : list Z) : Z_sum (l1 ++ l2) = Z_sum l1 + Z_sum l2.
Proof. unfold Z_sum. induction l1; cbn; lia. Qed.

Lemma trades_of_snoc (sym : string) (h : list Trade) (t : Trade) :
  trades_of sym (h ++ [t])
  = trades_of sym h ++ (if bool_decide (symbol t = sym) then [t] else []).
Proof. unfold trades_of. by rewrite List.filter_app. Qed.

Lemma metrics_of_eq (sym : string) (h : list Trade) :
  metrics_of sym h
  = if decide (trades_of sym h = []) then None
    else Some (mkMetrics (Z.of_nat (length (trades_of sym h)))
                         (Z_sum (map profit (trades_of sym h)))
                         (Z_sum (map loss (trades_of sym h)))).
Proof. unfold metrics_of. by destruct (trades_of sym h). Qed.

Lemma metrics_of_snoc (sym : string) (h : list Trade) (t : Trade) :
  metrics_of sym (h ++ [t])
  = if bool_decide (symbol t = sym)
    then Some (let x := default (mkMetrics 0 0 0) (metrics_of sym h) in
               mkMetrics (total_trades x + 1) (total_profit x + profit t)
                         (total_loss x + loss t))
    else metrics_of sym h.
Proof.
  rewrite !metrics_of_eq, trades_of_snoc.
  destruct (bool_decide (symbol t = sym)); [|by rewrite (right_id_L [] (++))].
  rewrite decide_False by (by destruct (trades_of sym h)).
  rewrite length_app, !map_app, !Z_sum_app.
  case_decide as E.
  - rewrite E. unfold Z_sum. cbn. do 2 f_equal; lia.
  - cbn. unfold Z_sum. cbn. do 2 f_equal; lia.
Qed.

Lemma record_trade_books (today : date) (t : Trade) (m : RiskManager) :
  books_agree m → books_agree (record_trade today t m).
Proof.
  intros [Hloss Hmetrics].
  assert (Hh : trade_history (record_trade today t m) = trade_history m ++ [t]).
  { unfold record_trade, _track_trade_metrics, _update_daily_loss.
    cbn. by destruct (bool_decide _). }
  assert (Hl : current_loss (record_trade today t m) = current_loss m + loss t).
  { unfold record_trade, _track_trade_metrics, _update_daily_loss.
    cbn. by destruct (bool_decide _). }
  assert (Hm : trade_metrics (record_trade today t m)
               = alter (fun x => mkMetrics (total_trades x + 1)
                                           (total_profit x + profit t)
                                           (total_loss x + loss t))
                       (symbol t)
                       (setdefault (symbol t) (mkMetrics 0 0 0) (trade_metrics m))).
  { unfold record_trade, _track_trade_metrics, _update_daily_loss.
    cbn. by destruct (bool_decide _). }
  split.
  - rewrite Hh, Hl, map_app, Z_sum_app, Hloss. unfold Z_sum. cbn. lia.
  - intros sym.
    rewrite Hh, Hm, metrics_of_snoc, lookup_alter.
    case_decide as Hs.
    + rewrite bool_decide_eq_true_2, lookup_setdefault, decide_True by done.
      cbn. by rewrite <- Hmetrics, Hs.
    + rewrite bool_decide_eq_false_2, lookup_setdefault, decide_False by done.
      apply Hmetrics.
Qed.

Lemma reset_risk_books (m : RiskManager) : books_agree (reset_risk m).
Proof. split; [done|]. intros sym. cbn. apply lookup_empty. Qed.

Lemma exec_books (c : call) (m : RiskManager) :
  books_agree m → books_agree (exec pow_half c m).
Proof.
  intros H. destruct c as [c sym|today t| | | | |]; cbn [exec]; try done.
  - by apply record_trade_books.
  - unfold _enforce_stop_loss. destruct (_ >=? _); [apply reset_risk_books | done].
  - destruct (real_time_risk_monitoring_spec m) as [_ ->].
    destruct (_ && _); [apply reset_risk_books | done].
Qed.

(** X14.  The books always agree with the trade history: on every object
    reached from a fresh one by position updates, recorded trades, checks,
    enforcement and resets, [current_loss] is the sum of the losses of the
    trades in [trade_history] (whatever their dates), and [trade_metrics]
    holds for each symbol the number of its trades and the sums of their
    profits and losses, with no entry for a symbol that has no trade. *)
Theorem books_agree_with_history
    (cs : list call) (today : date) (mps mdl : Z) (limits : list Limit) :
  books_agree (exec_all pow_half cs (init today mps mdl limits)).
Proof.
  assert (H : ∀ m, books_agree m → books_agree (exec_all pow_half cs m)).
  { induction cs as [|c cs IH]; intros m Hm; [done|].
    cbn [exec_all foldl]. fold (exec_all pow_half cs (exec pow_half c m)).
    by apply IH, exec_books. }
  apply H. split; [done|]. intros sym. cbn. apply lookup_empty.
Qed.

Lemma record_trade_same_day (d : date) (t : Trade) (m : RiskManager) :
  start_of_day m = d →
  start_of_day (record_trade d t m) = d
  ∧ current_loss (record_trade d t m) = current_loss m + loss t
  ∧ daily_loss_tracker (record_trade d t m)
    = <[symbol t := default 0 (daily_loss_tracker m !! symbol t) + loss t]>
        (daily_loss_tracker m).
Proof.
  intros Hd. unfold record_trade, _track_trade_metrics, _update_daily_loss.
  cbn. rewrite bool_decide_eq_false_2 by (intros ?; congruence).
  cbn. by rewrite accumulate_insert.
Qed.

(** X15.  Within one trading day the per-symbol daily losses add up to the
    total loss: after any series of trades recorded on the day the manager
    was created, the sum of [daily_loss_tracker] equals [current_loss]. *)
Theorem daily_losses_add_up
    (ts : list Trade) (today : date) (mps mdl : Z) (limits : list Limit) :
  let m := record_trades today ts (init today mps mdl limits) in
  tracker_sum (daily_loss_tracker m) = current_loss m
  ∧ current_loss m = Z_sum (map loss ts).
Proof.
  cbn zeta.
  assert (H : ∀ m, start_of_day m = today →
              tracker_sum (daily_loss_tracker (record_trades today ts m))
              = tracker_sum (daily_loss_tracker m) + Z_sum (map loss ts)
              ∧ current_loss (record_trades today ts m)
                = current_loss m + Z_sum (map loss ts)).
  { induction ts as [|t ts IH]; intros m Hm.
    - unfold Z_sum. cbn. lia.
    - cbn [record_trades foldl]. fold (record_trades today ts (record_trade today t m)).
      destruct (record_trade_same_day today t m Hm) as (Hd & Hl & Ht).
      destruct (IH _ Hd) as [-> ->].
      rewrite Hl, Ht, tracker_sum_insert. unfold Z_sum. cbn. lia. }
  destruct (H (init today mps mdl limits) eq_refl) as [H1 H2].
  rewrite H1, H2. cbn. unfold tracker_sum. rewrite map_fold_empty. lia.
Qed.

End RiskMgrRunFacts.

Section DrawdownFacts.
Import RiskMgr.
Variable pow_half : Qc -> Qc.

Lemma max_drawdown_loop_zero (rest : list Trade) (p max_drawdown : Z) :
  0 ≤ max_drawdown →
  max_drawdown_loop (Finite p) max_drawdown rest = 0
  ↔ max_drawdown = 0 ∧ Sorted Z.le (p :: map profit rest).
Proof.
  revert p max_drawdown. induction rest as [|t rest IH]; intros p md Hmd.
  - cbn. split; [intros ->; split; [done | repeat constructor] | by intros [-> _]].
  - cbn [max_drawdown_loop peak_max map]. rewrite IH by lia. split.
    + intros [Hz Hs].
      assert (p ≤ profit t) by lia.
      rewrite Z.max_r in Hs by done.
      split; [lia|]. constructor; [done | by constructor].
    + intros [-> Hs]. apply Sorted_inv in Hs as [Hs Hhd].
      apply HdRel_inv in Hhd.
      rewrite (Z.max_r p (profit t)) by done. split; [lia | done].
Qed.

(** X16.  [_calculate_max_drawdown] is never negative, is 0 on an empty
    history, equals the largest decline of the series of per-trade profits
    (the largest earlier profit minus the current one), and is 0 exactly when
    the per-trade profits never decrease from one trade to the next. *)
Theorem max_drawdown_of_per_trade_profits (m : RiskManager) :
  _calculate_max_drawdown m = largest_decline (map profit (trade_history m))
  ∧ 0 ≤ _calculate_max_drawdown m
  ∧ (trade_history m = [] → _calculate_max_drawdown m = 0)
  ∧ (_calculate_max_drawdown m = 0
     ↔ Sorted Z.le (map profit (trade_history m))).
Proof.
  split; [apply calculate_max_drawdown_per_trade|]. split.
  { rewrite calculate_max_drawdown_per_trade. apply foldr_max_nonneg. }
  split; [by unfold _calculate_max_drawdown; intros ->|].
  unfold _calculate_max_drawdown.
  destruct (trade_history m) as [|t rest]; [by split; [constructor|]|].
  cbn [max_drawdown_loop peak_max map].
  rewrite Z.sub_diag, Z.max_id.
  rewrite max_drawdown_loop_zero by done. split; [by intros [_ ?] | done].
Qed.

Lemma short_history_metrics (m : RiskManager) (risk_free_rate : Qc) :
  (length (trade_history m) < 2)%nat →
  _calculate_volatility pow_half m = 0%Qc
  ∧ _calculate_sharpe_ratio pow_half risk_free_rate m = 0%Qc.
Proof.
  intros H.
  assert (Hv : _calculate_volatility pow_half m = 0%Qc).
  { unfold _calculate_volatility. rewrite length_map.
    destruct (Z.ltb_spec (Z.of_nat (length (trade_history m))) 2); [done | lia]. }
  split; [done|]. unfold _calculate_sharpe_ratio. rewrite Hv.
  by rewrite bool_decide_eq_true_2.
Qed.

(** X17.  With fewer than two trades in the history the volatility and the
    Sharpe ratio are both 0, whatever the risk-free rate: no square root is
    taken and nothing is divided by the zero volatility. *)
Theorem volatility_and_sharpe_need_two_trades
    (m : RiskManager) (risk_free_rate : Qc) :
  (length (trade_history m) < 2)%nat →
  _calculate_volatility pow_half m = 0%Qc
  ∧ _calculate_sharpe_ratio pow_half risk_free_rate m = 0%Qc.
Proof. apply short_history_metrics. Qed.

Lemma metric_after_reset (metric_name : string) (m : RiskManager) :
  _calculate_metric pow_half metric_name (reset_risk m) = 0%Qc.
Proof.
  unfold _calculate_metric.
  destruct (short_history_metrics (reset_risk m) risk_free_rate_default)
    as [-> ->]; [cbn; lia|].
  change (_calculate_max_drawdown (reset_risk m)) with 0.
  rewrite Z2Qc_inj_0. by repeat case_bool_decide.
Qed.

Lemma custom_limit_after_reset (limit : Limit) (m : RiskManager) :
  _check_custom_limit pow_half limit (reset_risk m) = true
  ↔ (0 ≤ value limit)%Qc.
Proof.
  unfold _check_custom_limit. rewrite metric_after_reset.
  apply bool_decide_eq_true.
Qed.

Lemma custom_limits_after_reset (m : RiskManager) :
  Forall (fun limit => _check_custom_limit pow_half limit (reset_risk m) = true)
         (risk_limits m)
  ↔ Forall (fun limit => (0 ≤ value limit)%Qc) (risk_limits m).
Proof.
  split; intros H; (eapply Forall_impl; [exact H|]); intros l;
    apply custom_limit_after_reset.
Qed.

(** X18.  After [reset_risk] every metric is 0, so [check_risk_limits]
    passes exactly when [max_position_size], [max_daily_loss] and the value
    of every custom limit are non-negative. *)
Theorem check_after_reset (m : RiskManager) :
  (check_risk_limits pow_half (reset_risk m)).1 = true
  ↔ 0 ≤ max_position_size m
    ∧ 0 ≤ max_daily_loss m
    ∧ Forall (fun limit => (0 ≤ value limit)%Qc) (risk_limits m).
Proof.
  rewrite check_risk_limits_true.
  change (current_position_size (reset_risk m)) with 0.
  change (current_loss (reset_risk m)) with 0.
  change (max_position_size (reset_risk m)) with (max_position_size m).
  change (max_daily_loss (reset_risk m)) with (max_daily_loss m).
  change (risk_limits (reset_risk m)) with (risk_limits m).
  change (Z.abs 0) with 0.
  by rewrite custom_limits_after_reset.
Qed.

(** X25.  The halt of the stop-loss lasts for one call.  When no symbol is
    over its limit and the loss has reached [max_daily_loss], a monitoring
    call returns [False] and resets the object; the next call passes exactly
    when [max_daily_loss] is positive and [max_position_size] and the value
    of every custom limit are non-negative. *)
Theorem monitoring_after_stop_loss (m : RiskManager) :
  _enforce_position_limits m = true →
  max_daily_loss m ≤ current_loss m →
  (real_time_risk_monitoring pow_half m).1 = false
  ∧ ((real_time_risk_monitoring pow_half
        (real_time_risk_monitoring pow_half m).2).1 = true
     ↔ 0 < max_daily_loss m
       ∧ 0 ≤ max_position_size m
       ∧ Forall (fun limit => (0 ≤ value limit)%Qc) (risk_limits m)).
Proof.
  intros Hpos Hloss. rewrite monitoring_resets_on_stop_loss by done.
  split; [done|]. cbn [snd].
  destruct (real_time_risk_monitoring_spec pow_half (reset_risk m)) as [-> _].
  change (_enforce_position_limits (reset_risk m))
    with (_enforce_position_limits m).
  change (current_position_size (reset_risk m)) with 0.
  change (current_loss (reset_risk m)) with 0.
  change (max_position_size (reset_risk m)) with (max_position_size m).
  change (max_daily_loss (reset_risk m)) with (max_daily_loss m).
  change (risk_limits (reset_risk m)) with (risk_limits m).
  change (Z.abs 0) with 0.
  rewrite custom_limits_after_reset. by intuition.
Qed.

(** X19.  A custom limit whose metric name is none of ['max_drawdown'],
    ['volatility'] and ['sharpe_ratio'] measures 0 on every state: it passes
    exactly when its value is non-negative. *)
Theorem unknown_metric_measures_zero (limit : Limit) (m : RiskManager) :
  metric limit ≠ "max_drawdown" →
  metric limit ≠ "volatility" →
  metric limit ≠ "sharpe_ratio" →
  _calculate_metric pow_half (metric limit) m = 0%Qc
  ∧ (_check_custom_limit pow_half limit m = true ↔ (0 ≤ value limit)%Qc).
Proof.
  intros H1 H2 H3.
  assert (Hz : _calculate_metric pow_half (metric limit) m = 0%Qc).
  { unfold _calculate_metric. by rewrite !bool_decide_eq_false_2. }
  split; [done|]. unfold _check_custom_limit. rewrite Hz.
  apply bool_decide_eq_true.
Qed.

End DrawdownFacts.

(** [volatility_and_sharpe_need_two_trades] on a concrete run. *)
Lemma volatility_and_sharpe_need_two_trades_witness :
  let m := RiskMgr.record_trade 0 (RiskMgr.mkTrade "AAPL" 500 100)
             (RiskMgr.init 0 1000 5000 []) in
  RiskMgr._calculate_volatility RiskMgr.no_pow_half m = 0%Qc
  ∧ RiskMgr._calculate_sharpe_ratio RiskMgr.no_pow_half
      RiskMgr.risk_free_rate_default m = 0%Qc.
Proof.
  apply (volatility_and_sharpe_need_two_trades RiskMgr.no_pow_half
           (RiskMgr.record_trade 0 (RiskMgr.mkTrade "AAPL" 500 100)
              (RiskMgr.init 0 1000 5000 []))
           RiskMgr.risk_free_rate_default).
  vm_compute. constructor.
Defined.

(** [unknown_metric_measures_zero] on a concrete run. *)
Lemma unknown_metric_measures_zero_witness :
  let limit := RiskMgr.mkLimit "Exposure" "exposure" (Qc_of_Z 10) in
  let m := RiskMgr.record_trade 0 (RiskMgr.mkTrade "AAPL" 500 100)
             (RiskMgr.init 0 1000 5000 [limit]) in
  RiskMgr._calculate_metric RiskMgr.no_pow_half "exposure" m = 0%Qc
  ∧ (RiskMgr._check_custom_limit RiskMgr.no_pow_half limit m = true
     ↔ (0 ≤ Qc_of_Z 10)%Qc).
Proof.
  apply (unknown_metric_measures_zero RiskMgr.no_pow_half
           (RiskMgr.mkLimit "Exposure" "exposure" (Qc_of_Z 10))
           (RiskMgr.record_trade 0 (RiskMgr.mkTrade "AAPL" 500 100)
              (RiskMgr.init 0 1000 5000
                 [RiskMgr.mkLimit "Exposure" "exposure" (Qc_of_Z 10)])));
    discriminate.
Defined.

(** [monitoring_after_stop_loss] on a concrete run. *)
Lemma monitoring_after_stop_loss_witness :
  let m := RiskMgr.record_trade 0 (RiskMgr.mkTrade "AAPL" 0 5000)
             (RiskMgr.update_position 400 "AAPL"
                (RiskMgr.init 0 1000 5000
                   [RiskMgr.mkLimit "Max Drawdown" "max_drawdown" (Qc_of_Z 2000)])) in
  (RiskMgr.real_time_risk_monitoring RiskMgr.no_pow_half m).1 = false
  ∧ (RiskMgr.real_time_risk_monitoring RiskMgr.no_pow_half
       (RiskMgr.real_time_risk_monitoring RiskMgr.no_pow_half m).2).1 = true.
Proof.
  assert (H := monitoring_after_stop_loss RiskMgr.no_pow_half
           (RiskMgr.record_trade 0 (RiskMgr.mkTrade "AAPL" 0 5000)
              (RiskMgr.update_position 400 "AAPL"
                 (RiskMgr.init 0 1000 5000
                    [RiskMgr.mkLimit "Max Drawdown" "max_drawdown"
                       (Qc_of_Z 2000)])))).
  cbn zeta. destruct H as [H1 H2].
  - vm_compute. reflexivity.
  - vm_compute. discriminate.
  - split; [exact H1|]. apply H2. split; [done|]. split; [done|].
    repeat constructor. vm_compute. discriminate.
Defined.

(** * Further properties of [RealTimeRiskMonitor] *)

Section MonitorRunFacts.
Import Monitor MonitorRun.
Variable network : nat -> post_outcome.

(** Whatever the endpoint does, [trigger_risk_alert] has halted, liquidated
    and invoked the alert. *)
Lemma trigger_risk_alert_trace (message : string) (tr : list action) :
  (trigger_risk_alert network message tr).1 = tr ++ enforcement [message].
Proof.
  unfold trigger_risk_alert, halt_trading, liquidate_positions, send_alert,
    invoke, mbind, M_bind, bind. cbn.
  rewrite <- !(assoc_L (++)). cbn.
  destruct (network _) as [status|]; [by destruct (status =? 200) | done].
Qed.

Lemma enforces_ret : enforces_prefix_of [] (ret tt).
Proof.
  intros tr. exists []. unfold ret. cbn.
  by rewrite (right_id_L [] (++)).
Qed.

Lemma enforces_trigger (message : string) :
  enforces_prefix_of [message] (trigger_risk_alert network message).
Proof.
  intros tr. exists [message]. split; [done|]. split; [|done].
  apply trigger_risk_alert_trace.
Qed.

Lemma enforces_conditional (b : bool) (message : string) :
  enforces_prefix_of (if b then [message] else [])
    (if b then trigger_risk_alert network message else ret tt).
Proof. destruct b; [apply enforces_trigger | apply enforces_ret]. Qed.

Lemma enforces_bind (v1 v2 : list string) (c1 c2 : M unit) :
  enforces_prefix_of v1 c1 →
  enforces_prefix_of v2 c2 →
  enforces_prefix_of (v1 ++ v2) (c1 ;; c2).
Proof.
  intros H1 H2 tr. destruct (H1 tr) as (r1 & P1 & E1 & F1).
  unfold mbind, M_bind, bind.
  destruct (c1 tr) as [tr' [e|[]]]; cbn [fst snd] in *.
  - exists r1. split; [by apply prefix_app_r|]. by split.
  - rewrite (F1 eq_refl) in E1. subst tr'.
    destruct (H2 (tr ++ enforcement v1)) as (r2 & P2 & E2 & F2).
    exists (v1 ++ r2). split; [by apply prefix_app|]. split.
    + by rewrite E2, enforcement_app, (assoc_L (++)).
    + intros H. by rewrite (F2 H).
Qed.

Lemma getitem_found (limits : gmap string Z) (k : string) (limit : Z)
    (body : Z → M unit) (tr : list action) :
  limits !! k = Some limit →
  (getitem limits k ≫= body) tr = body limit tr.
Proof. intros E. unfold mbind, M_bind, bind, getitem. by rewrite E. Qed.

Lemma getitem_missing (limits : gmap string Z) (k : string)
    (body : Z → M unit) (tr : list action) :
  limits !! k = None →
  (getitem limits k ≫= body) tr = (tr, inl (KeyError k)).
Proof. intros E. unfold mbind, M_bind, bind, getitem. by rewrite E. Qed.

Lemma bind_raised (c1 c2 : M unit) (tr tr' : list action) (e : exn) :
  c1 tr = (tr', inl e) → (c1 ;; c2) tr = (tr', inl e).
Proof. intros H. unfold mbind, M_bind, bind. by rewrite H. Qed.

Lemma bind_returned (c1 c2 : M unit) (tr tr' : list action) :
  c1 tr = (tr', inr tt) → (c1 ;; c2) tr = c2 tr'.
Proof. intros H. unfold mbind, M_bind, bind. by rewrite H. Qed.

Lemma enforces_asset_class_loop (limits : gmap string Z)
    (exposures : list (string * Z)) :
  enforces_prefix_of
    (omap (fun '(asset_class, exposure) =>
             match limits !! asset_class with
             | Some limit =>
                 if exposure >? limit
                 then Some ("Max exposure in " +:+ asset_class +:+ " exceeded")
                 else None
             | None => None
             end) exposures)
    (for_each exposures (fun '(asset_class, exposure) =>
       limit ← getitem limits asset_class;
       if exposure >? limit
       then trigger_risk_alert network
              ("Max exposure in " +:+ asset_class +:+ " exceeded")
       else ret tt)).
Proof.
  induction exposures as [|[asset_class exposure] rest IH].
  - apply enforces_ret.
  - cbn [for_each omap list_omap].
    destruct (limits !! asset_class) as [limit|] eqn:E.
    + destruct (exposure >? limit) eqn:Hgt.
      * apply (enforces_bind [_] _); [|exact IH].
        intros tr. rewrite (getitem_found _ _ limit) by done. rewrite Hgt.
        apply (enforces_trigger _ tr).
      * apply (enforces_bind [] _); [|exact IH].
        intros tr. rewrite (getitem_found _ _ limit) by done. rewrite Hgt.
        apply (enforces_ret tr).
    + intros tr. exists []. split; [apply prefix_nil|].
      erewrite bind_raised by (by apply getitem_missing). cbn.
      by rewrite (right_id_L [] (++)).
Qed.

Lemma check_risk_limits_enforces (m : RealTimeRiskMonitor) :
  enforces_prefix_of (violated_rules m) (check_risk_limits network m).
Proof.
  unfold violated_rules, check_risk_limits.
  apply enforces_bind; [apply enforces_conditional|].
  apply enforces_bind; [apply enforces_conditional|].
  apply enforces_asset_class_loop.
Qed.

Lemma monitor_risk_enforces (snapshots : list RealTimeRiskMonitor)
    (tr : list action) :
  ∃ rules, (length rules ≤ violations_found snapshots)%nat
           ∧ monitor_risk network snapshots tr = tr ++ enforcement rules.
Proof.
  revert tr. induction snapshots as [|m rest IH]; intros tr.
  - exists []. cbn. by rewrite (right_id_L [] (++)).
  - change (monitor_risk network (m :: rest) tr)
      with (monitor_risk network rest (evaluate network m tr)).
    destruct (check_risk_limits_enforces m tr) as (r1 & P1 & E1 & _).
    unfold evaluate. rewrite E1.
    destruct (IH (tr ++ enforcement r1)) as (r2 & L2 & E2).
    exists (r1 ++ r2). rewrite E2, enforcement_app, (assoc_L (++)).
    split; [|done]. rewrite violations_found_cons, length_app.
    apply prefix_length in P1. lia.
Qed.

(** X20.  Halt, liquidation and alert always come together, in any run of
    the monitoring loop and whatever goes wrong in it (an alert that cannot
    be delivered, an asset class without a limit): the three actions have
    been invoked equally often, and never more often than violations were
    found. *)
Theorem enforcement_actions_come_together
    (snapshots : list RealTimeRiskMonitor) :
  let tr := monitor_risk network snapshots [] in
  calls is_halt tr = calls is_alert tr
  ∧ calls is_liquidate tr = calls is_alert tr
  ∧ (calls is_alert tr ≤ violations_found snapshots)%nat.
Proof.
  cbn zeta. destruct (monitor_risk_enforces snapshots []) as (rules & L & ->).
  cbn [app]. destruct (calls_enforcement rules) as (-> & -> & ->). done.
Qed.

Lemma get_asset_class_known (sym : string) :
  get_asset_class sym ∈ asset_classes.
Proof.
  unfold get_asset_class, asset_classes.
  repeat (destruct (String.prefix _ sym); [set_solver|]). set_solver.
Qed.

Lemma dict_accumulate_keys (P : string → Prop) (k : string) (v : Z)
    (d : list (string * Z)) :
  P k → Forall (fun e => P e.1) d →
  Forall (fun e => P e.1) (dict_accumulate k v d).
Proof.
  intros Hk. induction d as [|[k' v'] rest IH]; intros Hd; cbn.
  - by repeat constructor.
  - apply Forall_cons in Hd as [Hk' Hd].
    destruct (String.eqb k' k); constructor; auto.
Qed.

Lemma exposure_fold_keys (ps : list (string * Position)) (d : list (string * Z)) :
  Forall (fun e => e.1 ∈ asset_classes) d →
  Forall (fun e => e.1 ∈ asset_classes)
         (foldl (fun d '(sym, position) =>
                   dict_accumulate (get_asset_class sym)
                     (quantity position * entry_price position) d) d ps).
Proof.
  revert d. induction ps as [|[sym p] rest IH]; intros d Hd; [done|].
  cbn [foldl]. apply IH.
  apply (dict_accumulate_keys (fun k => k ∈ asset_classes)); [|done].
  apply get_asset_class_known.
Qed.

Lemma exposure_keys_known (m : RealTimeRiskMonitor) :
  Forall (fun e => e.1 ∈ asset_classes)
         (exposure_by_asset_class (update_exposure_by_asset_class m)).
Proof. apply exposure_fold_keys. constructor. Qed.

(** X21.  A limits dict with an entry for each of the four asset classes
    ['Forex'], ['Equities'], ['Commodities'] and ['Other'] is enough: after
    [update_exposure_by_asset_class] every asset class of the snapshot has a
    limit, so that, with an alert endpoint that answers, [check_risk_limits]
    raises no exception and enforces every violated rule. *)
Theorem four_asset_class_limits_suffice
    (m : RealTimeRiskMonitor) (tr : list action) :
  (∀ n, network n ≠ Raises) →
  (∀ asset_class, asset_class ∈ asset_classes →
     is_Some (max_exposure_by_asset_class (risk_limits m) !! asset_class)) →
  let m' := update_exposure_by_asset_class m in
  limits_configured m'
  ∧ check_risk_limits network m' tr
    = (tr ++ enforcement (violated_rules m'), inr tt).
Proof.
  intros Hnet Hcfg. cbn zeta.
  assert (H : limits_configured (update_exposure_by_asset_class m)).
  { unfold limits_configured.
    eapply Forall_impl; [apply exposure_keys_known|].
    intros e He. by apply Hcfg. }
  split; [done|]. by apply check_risk_limits_answered.
Qed.

Lemma dict_get_accumulate (k' k : string) (v : Z) (d : list (string * Z)) :
  dict_get k' (dict_accumulate k v d)
  = if String.eqb k k' then Some (default 0 (dict_get k d) + v)
    else dict_get k' d.
Proof.
  induction d as [|[k0 v0] rest IH]; cbn.
  - destruct (String.eqb_spec k k'); [done|]. done.
  - destruct (String.eqb_spec k0 k) as [->|Hne]; cbn.
    + destruct (String.eqb_spec k k'); [done|]. done.
    + rewrite IH.
      destruct (String.eqb_spec k0 k') as [->|Hne'].
      * destruct (String.eqb_spec k k'); [congruence | done].
      * done.
Qed.

Lemma dict_accumulate_NoDup (k : string) (v : Z) (d : list (string * Z)) :
  NoDup d.*1 → NoDup (dict_accumulate k v d).*1.
Proof.
  assert (Hin : ∀ d x, x ∈ (dict_accumulate k v d).*1 → x = k ∨ x ∈ d.*1).
  { clear d. induction d as [|[k0 v0] rest IH]; intros x; cbn.
    - rewrite elem_of_cons. intros [->|Hx]; [by left | by right].
    - destruct (String.eqb k0 k); cbn; [by right|].
      rewrite !elem_of_cons. intros [->|Hx]; [by right; left|].
      destruct (IH x Hx); [by left | by right; right]. }
  induction d as [|[k0 v0] rest IH]; cbn; intros Hnd.
  - apply NoDup_singleton.
  - apply NoDup_cons in Hnd as [Hk0 Hnd].
    destruct (String.eqb_spec k0 k) as [->|Hne]; cbn.
    + by apply NoDup_cons.
    + apply NoDup_cons. split; [|by apply IH].
      intros Hx. destruct (Hin rest k0 Hx); [done | done].
Qed.

Lemma exposure_fold (asset_class : string) (ps : list (string * Position))
    (d : list (string * Z)) :
  let d' := foldl (fun d '(sym, position) =>
                     dict_accumulate (get_asset_class sym)
                       (quantity position * entry_price position) d) d ps in
  (NoDup d.*1 → NoDup d'.*1)
  ∧ dict_get asset_class d'
    = match positions_of asset_class ps with
      | [] => dict_get asset_class d
      | held => Some (default 0 (dict_get asset_class d) + notional held)
      end.
Proof.
  cbn zeta. revert d. induction ps as [|[sym p] rest IH]; intros d; [done|].
  cbn [foldl].
  destruct (IH (dict_accumulate (get_asset_class sym)
                  (quantity p * entry_price p) d)) as [Hnd ->].
  split; [intros H; by apply Hnd, dict_accumulate_NoDup|].
  rewrite dict_get_accumulate. unfold positions_of. cbn [List.filter fst].
  destruct (String.eqb_spec (get_asset_class sym) asset_class) as [Heq|Hne].
  - rewrite Heq. cbn [default]. unfold notional. cbn [map foldr snd].
    destruct (List.filter _ rest); cbn; f_equal; lia.
  - done.
Qed.

(** X22.  [update_exposure_by_asset_class] nets the positions of each asset
    class: the dict it builds has one entry per asset class that holds a
    position, whose value is the sum of [quantity * entry_price] over the
    positions of that class (shorts reduce it), and no entry for a class
    without positions. *)
Theorem exposure_is_net_notional_by_class
    (asset_class : string) (m : RealTimeRiskMonitor) :
  let d := exposure_by_asset_class (update_exposure_by_asset_class m) in
  NoDup d.*1
  ∧ dict_get asset_class d
    = match positions_of asset_class (positions m) with
      | [] => None
      | held => Some (notional held)
      end.
Proof.
  cbn zeta. unfold update_exposure_by_asset_class. cbn [exposure_by_asset_class].
  destruct (exposure_fold asset_class (positions m) []) as [Hnd ->].
  split; [apply Hnd; constructor|].
  by destruct (positions_of asset_class (positions m)).
Qed.


Lemma checked_asset_class (limits : gmap string Z) (asset_class : string)
    (exposure limit : Z) (tr : list action) :
  (∀ n, network n ≠ Raises) →
  limits !! asset_class = Some limit →
  (limit ← getitem limits asset_class;
   if exposure >? limit
   then trigger_risk_alert network
          ("Max exposure in " +:+ asset_class +:+ " exceeded")
   else ret tt) tr
  = (tr ++ enforcement
             (if exposure >? limit
              then ["Max exposure in " +:+ asset_class +:+ " exceeded"]
              else []),
     inr tt).
Proof.
  intros Hnet E. rewrite (getitem_found _ _ limit) by done.
  by apply conditional_alert.
Qed.

Lemma asset_class_loop_key_error (limits : gmap string Z)
    (checked : list (string * Z)) (asset_class : string) (exposure : Z)
    (rest : list (string * Z)) (tr : list action) :
  (∀ n, network n ≠ Raises) →
  Forall (fun e => is_Some (limits !! e.1)) checked →
  limits !! asset_class = None →
  for_each (checked ++ (asset_class, exposure) :: rest)
    (fun '(asset_class, exposure) =>
       limit ← getitem limits asset_class;
       if exposure >? limit
       then trigger_risk_alert network
              ("Max exposure in " +:+ asset_class +:+ " exceeded")
       else ret tt) tr
  = (tr ++ enforcement
             (omap (fun '(asset_class, exposure) =>
                      match limits !! asset_class with
                      | Some limit =>
                          if exposure >? limit
                          then Some ("Max exposure in " +:+ asset_class
                                     +:+ " exceeded")
                          else None
                      | None => None
                      end) checked),
     inl (KeyError asset_class)).
Proof.
  intros Hnet Hcfg Hnone. revert tr.
  induction checked as [|[ac e] checked IH]; intros tr.
  - cbn [app for_each omap list_omap].
    erewrite bind_raised by (by apply getitem_missing).
    cbn. by rewrite (right_id_L [] (++)).
  - apply Forall_cons in Hcfg as [[limit Hlimit] Hcfg]. cbn in Hlimit.
    cbn [app for_each omap list_omap].
    erewrite bind_returned by (by apply (checked_asset_class _ _ _ limit)).
    rewrite IH by done. rewrite Hlimit, <- (assoc_L (++)).
    by destruct (e >? limit).
Qed.

(** X23.  An asset class without a configured limit raises [KeyError] in
    the middle of [check_risk_limits]: the rules examined before it have been
    enforced, and the asset classes that come after it in the dict are never
    examined. *)
Theorem missing_limit_cuts_evaluation
    (m : RealTimeRiskMonitor) (tr : list action)
    (checked : list (string * Z)) (asset_class : string) (exposure : Z)
    (rest : list (string * Z)) :
  (∀ n, network n ≠ Raises) →
  exposure_by_asset_class m = checked ++ (asset_class, exposure) :: rest →
  Forall (fun e => is_Some (max_exposure_by_asset_class (risk_limits m) !! e.1))
         checked →
  max_exposure_by_asset_class (risk_limits m) !! asset_class = None →
  check_risk_limits network m tr
  = (tr ++ enforcement (violated_rules (with_exposures checked m)),
     inl (KeyError asset_class)).
Proof.
  intros Hnet Hexp Hcfg Hnone. unfold check_risk_limits, violated_rules.
  erewrite bind_returned by (by apply conditional_alert).
  erewrite bind_returned by (by apply conditional_alert).
  rewrite Hexp, asset_class_loop_key_error by done.
  cbn [with_exposures exposure_by_asset_class total_exposure total_pnl risk_limits].
  by rewrite !enforcement_app, !(assoc_L (++)).
Qed.

Lemma calls_is_alert_before_send (tr : list action) :
  calls is_alert ((tr ++ [HaltTrading]) ++ [LiquidatePositions])
  = calls is_alert tr.
Proof. rewrite !calls_app. cbn. lia. Qed.

(** When the endpoint fails on the next alert, [trigger_risk_alert] has
    halted, liquidated and invoked the alert, and raises. *)
Lemma trigger_risk_alert_raised (message : string) (tr : list action) :
  network (calls is_alert tr) = Raises →
  trigger_risk_alert network message tr
  = (tr ++ enforcement [message], inl RequestException).
Proof.
  intros H.
  unfold trigger_risk_alert, halt_trading, liquidate_positions, send_alert,
    invoke, mbind, M_bind, bind.
  cbn beta iota. rewrite calls_is_alert_before_send, H.
  by rewrite <- !(assoc_L (++)).
Qed.

Lemma asset_class_loop_alert_raised (limits : gmap string Z)
    (exposures : list (string * Z)) (tr : list action) :
  network (calls is_alert tr) = Raises →
  Forall (fun e => is_Some (limits !! e.1)) exposures →
  let violated :=
    omap (fun '(asset_class, exposure) =>
            match limits !! asset_class with
            | Some limit =>
                if exposure >? limit
                then Some ("Max exposure in " +:+ asset_class +:+ " exceeded")
                else None
            | None => None
            end) exposures in
  for_each exposures
    (fun '(asset_class, exposure) =>
       limit ← getitem limits asset_class;
       if exposure >? limit
       then trigger_risk_alert network
              ("Max exposure in " +:+ asset_class +:+ " exceeded")
       else ret tt) tr
  = (tr ++ enforcement (take 1 violated),
     match violated with [] => inr tt | _ => inl RequestException end).
Proof.
  intros Hraise Hcfg. cbn zeta.
  induction exposures as [|[ac e] rest IH].
  - cbn. unfold ret. by rewrite (right_id_L [] (++)).
  - apply Forall_cons in Hcfg as [[limit Hlimit] Hcfg]. cbn in Hlimit.
    cbn [for_each omap list_omap]. rewrite Hlimit.
    destruct (e >? limit) eqn:Hgt.
    + erewrite bind_raised; [done|].
      rewrite (getitem_found _ _ limit), Hgt by done.
      by apply trigger_risk_alert_raised.
    + erewrite bind_returned; [by apply IH|].
      by rewrite (getitem_found _ _ limit), Hgt.
Qed.

(** X24.  An alert that cannot be delivered ends the evaluation: when
    [requests.post] raises on the next alert, [check_risk_limits] enforces
    the first violated rule (halt, liquidation and the failed alert) and
    raises, leaving the further violated rules unenforced; with no violated
    rule it returns normally and invokes nothing. *)
Theorem failed_alert_cuts_evaluation
    (m : RealTimeRiskMonitor) (tr : list action) :
  network (calls is_alert tr) = Raises →
  limits_configured m →
  check_risk_limits network m tr
  = (tr ++ enforcement (take 1 (violated_rules m)),
     match violated_rules m with
     | [] => inr tt
     | _ => inl RequestException
     end).
Proof.
  intros Hraise Hcfg. unfold check_risk_limits, violated_rules.
  destruct (total_exposure m >? max_position_size (risk_limits m)).
  { erewrite bind_raised; [done|]. by apply trigger_risk_alert_raised. }
  erewrite bind_returned by done.
  destruct (total_pnl m <? max_loss (risk_limits m)).
  { erewrite bind_raised; [done|]. by apply trigger_risk_alert_raised. }
  erewrite bind_returned by done.
  by apply asset_class_loop_alert_raised.
Qed.

End MonitorRunFacts.

(** [four_asset_class_limits_suffice] on a concrete run. *)
Lemma four_asset_class_limits_suffice_witness :
  let limits := Monitor.mkRiskLimitsDict 1000 (-5000)
                  {["Forex" := 500000; "Equities" := 100000;
                    "Commodities" := 50000; "Other" := 10000]} in
  let m := Monitor.update_exposure_by_asset_class
             (Monitor.mkMonitor
                [("EQAAPL", Monitor.mkPosition 900 100);
                 ("FXEURUSD", Monitor.mkPosition (-50) 2);
                 ("BTC", Monitor.mkPosition 1 20000)]
                [] 951 (-11) limits) in
  Monitor.limits_configured m
  ∧ Monitor.check_risk_limits (fun _ => Monitor.Response 200) m []
    = ([Monitor.HaltTrading; Monitor.LiquidatePositions;
        Monitor.SendAlert "Max exposure in Other exceeded"], inr tt).
Proof.
  assert (H := four_asset_class_limits_suffice
           (fun _ => Monitor.Response 200)
           (Monitor.mkMonitor
              [("EQAAPL", Monitor.mkPosition 900 100);
               ("FXEURUSD", Monitor.mkPosition (-50) 2);
               ("BTC", Monitor.mkPosition 1 20000)]
              [] 951 (-11)
              (Monitor.mkRiskLimitsDict 1000 (-5000)
                 {["Forex" := 500000; "Equities" := 100000;
                   "Commodities" := 50000; "Other" := 10000]}))
           []).
  cbn zeta in H. cbn zeta.
  destruct H as [H1 H2].
  - intros n. discriminate.
  - intros ac Hac. unfold MonitorRun.asset_classes in Hac.
    repeat (apply elem_of_cons in Hac as [->|Hac]; [by eexists|]).
    by apply elem_of_nil in Hac.
  - split; [exact H1|]. rewrite H2. vm_compute. reflexivity.
Defined.

(** [missing_limit_cuts_evaluation] on a concrete run. *)
Lemma missing_limit_cuts_evaluation_witness :
  let limits := Monitor.mkRiskLimitsDict 1000 (-5000)
                  {["Equities" := 100000; "Commodities" := 1]} in
  let m := Monitor.update_exposure_by_asset_class
             (Monitor.mkMonitor
                [("EQAAPL", Monitor.mkPosition 1100 100);
                 ("FXEURUSD", Monitor.mkPosition 50 2);
                 ("COMGOLD", Monitor.mkPosition 3 2000)]
                [] 1153 (-11) limits) in
  Monitor.exposure_by_asset_class m
  = [("Equities", 110000); ("Forex", 100); ("Commodities", 6000)]
  ∧ Monitor.check_risk_limits (fun _ => Monitor.Response 200) m []
    = ([Monitor.HaltTrading; Monitor.LiquidatePositions;
        Monitor.SendAlert "Max position size exceeded";
        Monitor.HaltTrading; Monitor.LiquidatePositions;
        Monitor.SendAlert "Max exposure in Equities exceeded"],
       inl (Monitor.KeyError "Forex")).
Proof.
  split; [vm_compute; reflexivity|].
  assert (H := missing_limit_cuts_evaluation
           (fun _ => Monitor.Response 200)
           (Monitor.update_exposure_by_asset_class
              (Monitor.mkMonitor
                 [("EQAAPL", Monitor.mkPosition 1100 100);
                  ("FXEURUSD", Monitor.mkPosition 50 2);
                  ("COMGOLD", Monitor.mkPosition 3 2000)]
                 [] 1153 (-11)
                 (Monitor.mkRiskLimitsDict 1000 (-5000)
                    {["Equities" := 100000; "Commodities" := 1]})))
           [] [("Equities", 110000)] "Forex" 100 [("Commodities", 6000)]).
  cbn zeta. rewrite H.
  - vm_compute. reflexivity.
  - intros n. discriminate.
  - vm_compute. reflexivity.
  - repeat constructor. by eexists.
  - vm_compute. reflexivity.
Defined.

(** [failed_alert_cuts_evaluation] on a concrete run. *)
Lemma failed_alert_cuts_evaluation_witness :
  let limits := Monitor.mkRiskLimitsDict 1000 (-5000)
                  {["Equities" := 100000]} in
  let m := Monitor.update_exposure_by_asset_class
             (Monitor.mkMonitor [("EQAAPL", Monitor.mkPosition 1100 100)]
                                [] 1100 (-11) limits) in
  Monitor.violated_rules m
  = ["Max position size exceeded"; "Max exposure in Equities exceeded"]
  ∧ Monitor.check_risk_limits (fun _ => Monitor.Raises) m []
    = ([Monitor.HaltTrading; Monitor.LiquidatePositions;
        Monitor.SendAlert "Max position size exceeded"],
       inl Monitor.RequestException).
Proof.
  split; [vm_compute; reflexivity|].
  assert (H := failed_alert_cuts_evaluation
           (fun _ => Monitor.Raises)
           (Monitor.update_exposure_by_asset_class
              (Monitor.mkMonitor [("EQAAPL", Monitor.mkPosition 1100 100)]
                                 [] 1100 (-11)
                                 (Monitor.mkRiskLimitsDict 1000 (-5000)
                                    {["Equities" := 100000]})))
           []).
  cbn zeta. rewrite H.
  - vm_compute. reflexivity.
  - reflexivity.
  - repeat constructor. by eexists.
Defined.
